(** * Cocktail aesthetics: the olog morphisms and the query interface

    A shallow embedding of [cocktail_ologs.py] (enumerations, record
    classes, the morphisms of [CocktailOlogMorphisms]) and of
    [cocktail_aesthetics_mcp.py] (the taxonomy table, the profile cache and
    the tools), followed by the properties proved about them. *)

From Stdlib Require Import ZArith NArith List String Ascii Bool Lia.
From stdpp Require Import base option list countable gmap.

Local Open Scope Z_scope.

(** ** Python strings

    A Python [str] is a sequence of Unicode code points. *)

Abbreviation str := (list N).

(** A literal whose characters are all in Basic Latin. *)
Definition lit (s : string) : str :=
  map N_of_ascii (list_ascii_of_string s).

(** [str.lower] and [str.upper] map every code point to one or more code
    points. The two tables below hold Python's mapping (Unicode 14) of Basic
    Latin and of the Latin-1 Supplement, and of every code point outside
    these two blocks whose image contains a Basic Latin character. Any other
    code point is left as it is. *)
Definition lower_cp (c : N) : list N :=
  (if (0x41 <=? c) && (c <=? 0x5A) then [c + 32]
   else if (0xC0 <=? c) && (c <=? 0xDE) && negb (c =? 0xD7) then [c + 32]
   else if c =? 0x130 then [0x69; 0x307]
   else if c =? 0x212A then [0x6B]
   else [c])%N.

Definition upper_cp (c : N) : list N :=
  (if (0x61 <=? c) && (c <=? 0x7A) then [c - 32]
   else if c =? 0xB5 then [0x39C]
   else if c =? 0xDF then [0x53; 0x53]
   else if (0xE0 <=? c) && (c <=? 0xFE) && negb (c =? 0xF7) then [c - 32]
   else if c =? 0xFF then [0x178]
   else if c =? 0x131 then [0x49]
   else if c =? 0x149 then [0x2BC; 0x4E]
   else if c =? 0x17F then [0x53]
   else if c =? 0x1F0 then [0x4A; 0x30C]
   else if c =? 0x1E96 then [0x48; 0x331]
   else if c =? 0x1E97 then [0x54; 0x308]
   else if c =? 0x1E98 then [0x57; 0x30A]
   else if c =? 0x1E99 then [0x59; 0x30A]
   else if c =? 0x1E9A then [0x41; 0x2BE]
   else if c =? 0xFB00 then [0x46; 0x46]
   else if c =? 0xFB01 then [0x46; 0x49]
   else if c =? 0xFB02 then [0x46; 0x4C]
   else if c =? 0xFB03 then [0x46; 0x46; 0x49]
   else if c =? 0xFB04 then [0x46; 0x46; 0x4C]
   else if c =? 0xFB05 then [0x53; 0x54]
   else if c =? 0xFB06 then [0x53; 0x54]
   else [c])%N.

Definition py_lower (s : str) : str := flat_map lower_cp s.
Definition py_upper (s : str) : str := flat_map upper_cp s.

(** [s.replace(old, new)] for one-character [old] and [new]. *)
Definition py_replace (old new : N) (s : str) : str :=
  map (fun c => if (c =? old)%N then new else c) s.

(** [sep.join(parts)] *)
Fixpoint py_join (sep : str) (parts : list str) : str :=
  match parts with
  | [] => []
  | [p] => p
  | p :: rest => p ++ sep ++ py_join sep rest
  end.

Definition str_eqb (s t : str) : bool := bool_decide (s = t).

(** ** Exceptions and results *)

Inductive exn : Type :=
  | KeyError (key : str)
  | ValueError (value : str)
  | AttributeError
  | TypeError.

Inductive result (A : Type) : Type :=
  | Ok (a : A)
  | Raise (e : exn).
Arguments Ok {A} a.
Arguments Raise {A} e.

#[global] Instance result_ret : MRet result := fun A a => Ok a.
#[global] Instance result_bind : MBind result := fun A B f m =>
  match m with
  | Ok a => f a
  | Raise e => Raise e
  end.

Definition is_Ok {A} (r : result A) : Prop := exists a, r = Ok a.

(** ** Values held by a raw record

    The values of a taxonomy record: [None], booleans, integers, strings
    and lists of such values. *)
#[warnings="-register-all"] Inductive pyval : Type :=
  | VNone
  | VBool (b : bool)
  | VInt (z : Z)
  | VStr (s : str)
  | VList (l : list pyval).

(** [v.lower()]: only a [str] has the method. *)
Definition py_str_lower (v : pyval) : result str :=
  match v with
  | VStr s => Ok (py_lower s)
  | _ => Raise AttributeError
  end.

(** [v >= n] for an integer literal [n]; [bool] is a subclass of [int]. *)
Definition py_ge (v : pyval) (n : Z) : result bool :=
  match v with
  | VInt z => Ok (n <=? z)
  | VBool b => Ok (n <=? (if b then 1 else 0))
  | _ => Raise TypeError
  end.

(** Truth value of [v], as tested by [if v:]. *)
Definition truthy (v : pyval) : bool :=
  match v with
  | VNone => false
  | VBool b => b
  | VInt z => negb (z =? 0)
  | VStr s => negb (bool_decide (s = []))
  | VList l => match l with [] => false | _ => true end
  end.

(** [v[:2]] *)
Definition py_slice2 (v : pyval) : result pyval :=
  match v with
  | VStr s => Ok (VStr (take 2 s))
  | VList l => Ok (VList (take 2 l))
  | _ => Raise TypeError
  end.

(** The items of an iterable of strings, as [str.join] reads them. *)
Fixpoint str_items (l : list pyval) : result (list str) :=
  match l with
  | [] => Ok []
  | VStr s :: rest => rest' ← str_items rest; Ok (s :: rest')
  | _ :: _ => Raise TypeError
  end.

Definition py_join_val (sep : str) (v : pyval) : result str :=
  match v with
  | VStr s => Ok (py_join sep (map (fun c => [c]) s))
  | VList l => parts ← str_items l; Ok (py_join sep parts)
  | _ => Raise TypeError
  end.

(** A raw record is a [dict] from strings to values. *)
Abbreviation Dict := (gmap str pyval).

(** [d[k]] *)
Definition getitem (d : Dict) (k : str) : result pyval :=
  match d !! k with
  | Some v => Ok v
  | None => Raise (KeyError k)
  end.

(** [d.get(k, dflt)] *)
Definition get (d : Dict) (k : str) (dflt : pyval) : pyval :=
  default dflt (d !! k).

(** ** Layer 1: the categorical taxonomy *)

(** What the morphisms use of [enum.Enum]: the members in definition order,
    each with its name and its value. *)
Class PyEnum (E : Type) := {
  members : list E;
  name_of : E -> str;
  value_of : E -> str
}.

(** [E(value)]: the member with that value, or [ValueError]. *)
Definition by_value (E : Type) `{PyEnum E} (v : str) : result E :=
  match find (fun m => str_eqb (value_of m) v) members with
  | Some m => Ok m
  | None => Raise (ValueError v)
  end.

(** [E[name]]: the member with that name, or [KeyError]. *)
Definition by_name (E : Type) `{PyEnum E} (n : str) : result E :=
  match find (fun m => str_eqb (name_of m) n) members with
  | Some m => Ok m
  | None => Raise (KeyError n)
  end.

Inductive SpiritBase := RUM | WHISKEY | VODKA | GIN | TEQUILA | COGNAC | MEZCAL.

Inductive FlavorType :=
  | BITTER | SWEET | SOUR | SPIRIT_FORWARD | HERBAL | FRUITY | CREAMY
  | SPICED | SMOKY.

Inductive ComplexityLevel := SIMPLE | MODERATE | COMPLEX.

Module ColorCategory.
Inductive t :=
  | AMBER | RUBY | GOLDEN | CLEAR | DARK | TROPICAL | GREEN | PURPLE.
End ColorCategory.

Inductive LightingStyle :=
  | WARM_SIDE_LIT | TIKI_TORCH | GOLDEN_HOUR | MOODY_AMBER | CRISP_BACKLIT
  | NEON_ACCENT | DIFFUSED_SOFT | DRAMATIC_SHADOW.

Module MoodDescriptor.
Inductive t :=
  | SOPHISTICATED | TROPICAL | NOSTALGIC | BOLD | ELEGANT | PLAYFUL | DARK
  | AROMATIC.
End MoodDescriptor.

Module CompositionApproach.
Inductive t := BALANCED | LAYERED | MINIMALIST | DRAMATIC | GARNISH_FOCUSED.
End CompositionApproach.

Module TextureQuality.
Inductive t :=
  | SMOOTH | CRYSTALLINE | CREAMY | OILY | EFFERVESCENT | TRANSLUCENT
  | OPAQUE | FOAMY.
End TextureQuality.

Module TemperatureVibe.
Inductive t := WARM | HOT | COOL | ICY | AMBIENT.
End TemperatureVibe.

#[global] Instance SpiritBase_eq_dec : EqDecision SpiritBase.
Proof. solve_decision. Defined.
#[global] Instance FlavorType_eq_dec : EqDecision FlavorType.
Proof. solve_decision. Defined.
#[global] Instance ComplexityLevel_eq_dec : EqDecision ComplexityLevel.
Proof. solve_decision. Defined.
#[global] Instance MoodDescriptor_eq_dec : EqDecision MoodDescriptor.t.
Proof. solve_decision. Defined.

#[global] Instance SpiritBase_enum : PyEnum SpiritBase := {
  members := [RUM; WHISKEY; VODKA; GIN; TEQUILA; COGNAC; MEZCAL];
  name_of m := lit match m with
    | RUM => "RUM" | WHISKEY => "WHISKEY" | VODKA => "VODKA" | GIN => "GIN"
    | TEQUILA => "TEQUILA" | COGNAC => "COGNAC" | MEZCAL => "MEZCAL" end;
  value_of m := lit match m with
    | RUM => "rum" | WHISKEY => "whiskey" | VODKA => "vodka" | GIN => "gin"
    | TEQUILA => "tequila" | COGNAC => "cognac" | MEZCAL => "mezcal" end
}.

#[global] Instance FlavorType_enum : PyEnum FlavorType := {
  members := [BITTER; SWEET; SOUR; SPIRIT_FORWARD; HERBAL; FRUITY; CREAMY;
              SPICED; SMOKY];
  name_of m := lit match m with
    | BITTER => "BITTER" | SWEET => "SWEET" | SOUR => "SOUR"
    | SPIRIT_FORWARD => "SPIRIT_FORWARD" | HERBAL => "HERBAL"
    | FRUITY => "FRUITY" | CREAMY => "CREAMY" | SPICED => "SPICED"
    | SMOKY => "SMOKY" end;
  value_of m := lit match m with
    | BITTER => "bitter" | SWEET => "sweet" | SOUR => "sour"
    | SPIRIT_FORWARD => "spirit_forward" | HERBAL => "herbal"
    | FRUITY => "fruity" | CREAMY => "creamy" | SPICED => "spiced"
    | SMOKY => "smoky" end
}.

#[global] Instance ComplexityLevel_enum : PyEnum ComplexityLevel := {
  members := [SIMPLE; MODERATE; COMPLEX];
  name_of m := lit match m with
    | SIMPLE => "SIMPLE" | MODERATE => "MODERATE" | COMPLEX => "COMPLEX" end;
  value_of m := lit match m with
    | SIMPLE => "simple" | MODERATE => "moderate" | COMPLEX => "complex" end
}.

#[global] Instance ColorCategory_enum : PyEnum ColorCategory.t := {
  members :=
    [ColorCategory.AMBER; ColorCategory.RUBY; ColorCategory.GOLDEN;
     ColorCategory.CLEAR; ColorCategory.DARK; ColorCategory.TROPICAL;
     ColorCategory.GREEN; ColorCategory.PURPLE];
  name_of m := lit match m with
    | ColorCategory.AMBER => "AMBER" | ColorCategory.RUBY => "RUBY"
    | ColorCategory.GOLDEN => "GOLDEN" | ColorCategory.CLEAR => "CLEAR"
    | ColorCategory.DARK => "DARK" | ColorCategory.TROPICAL => "TROPICAL"
    | ColorCategory.GREEN => "GREEN" | ColorCategory.PURPLE => "PURPLE" end;
  value_of m := lit match m with
    | ColorCategory.AMBER => "amber" | ColorCategory.RUBY => "ruby"
    | ColorCategory.GOLDEN => "golden" | ColorCategory.CLEAR => "clear"
    | ColorCategory.DARK => "dark" | ColorCategory.TROPICAL => "tropical"
    | ColorCategory.GREEN => "green" | ColorCategory.PURPLE => "purple" end
}.

#[global] Instance LightingStyle_enum : PyEnum LightingStyle := {
  members := [WARM_SIDE_LIT; TIKI_TORCH; GOLDEN_HOUR; MOODY_AMBER;
              CRISP_BACKLIT; NEON_ACCENT; DIFFUSED_SOFT; DRAMATIC_SHADOW];
  name_of m := lit match m with
    | WARM_SIDE_LIT => "WARM_SIDE_LIT" | TIKI_TORCH => "TIKI_TORCH"
    | GOLDEN_HOUR => "GOLDEN_HOUR" | MOODY_AMBER => "MOODY_AMBER"
    | CRISP_BACKLIT => "CRISP_BACKLIT" | NEON_ACCENT => "NEON_ACCENT"
    | DIFFUSED_SOFT => "DIFFUSED_SOFT"
    | DRAMATIC_SHADOW => "DRAMATIC_SHADOW" end;
  value_of m := lit match m with
    | WARM_SIDE_LIT => "warm_side_lit" | TIKI_TORCH => "tiki_torch"
    | GOLDEN_HOUR => "golden_hour" | MOODY_AMBER => "moody_amber"
    | CRISP_BACKLIT => "crisp_backlit" | NEON_ACCENT => "neon_accent"
    | DIFFUSED_SOFT => "diffused_soft"
    | DRAMATIC_SHADOW => "dramatic_shadow" end
}.

#[global] Instance MoodDescriptor_enum : PyEnum MoodDescriptor.t := {
  members :=
    [MoodDescriptor.SOPHISTICATED; MoodDescriptor.TROPICAL;
     MoodDescriptor.NOSTALGIC; MoodDescriptor.BOLD; MoodDescriptor.ELEGANT;
     MoodDescriptor.PLAYFUL; MoodDescriptor.DARK; MoodDescriptor.AROMATIC];
  name_of m := lit match m with
    | MoodDescriptor.SOPHISTICATED => "SOPHISTICATED"
    | MoodDescriptor.TROPICAL => "TROPICAL"
    | MoodDescriptor.NOSTALGIC => "NOSTALGIC" | MoodDescriptor.BOLD => "BOLD"
    | MoodDescriptor.ELEGANT => "ELEGANT" | MoodDescriptor.PLAYFUL => "PLAYFUL"
    | MoodDescriptor.DARK => "DARK" | MoodDescriptor.AROMATIC => "AROMATIC" end;
  value_of m := lit match m with
    | MoodDescriptor.SOPHISTICATED => "sophisticated"
    | MoodDescriptor.TROPICAL => "tropical"
    | MoodDescriptor.NOSTALGIC => "nostalgic" | MoodDescriptor.BOLD => "bold"
    | MoodDescriptor.ELEGANT => "elegant" | MoodDescriptor.PLAYFUL => "playful"
    | MoodDescriptor.DARK => "dark" | MoodDescriptor.AROMATIC => "aromatic" end
}.

#[global] Instance CompositionApproach_enum : PyEnum CompositionApproach.t := {
  members :=
    [CompositionApproach.BALANCED; CompositionApproach.LAYERED;
     CompositionApproach.MINIMALIST; CompositionApproach.DRAMATIC;
     CompositionApproach.GARNISH_FOCUSED];
  name_of m := lit match m with
    | CompositionApproach.BALANCED => "BALANCED"
    | CompositionApproach.LAYERED => "LAYERED"
    | CompositionApproach.MINIMALIST => "MINIMALIST"
    | CompositionApproach.DRAMATIC => "DRAMATIC"
    | CompositionApproach.GARNISH_FOCUSED => "GARNISH_FOCUSED" end;
  value_of m := lit match m with
    | CompositionApproach.BALANCED => "balanced"
    | CompositionApproach.LAYERED => "layered"
    | CompositionApproach.MINIMALIST => "minimalist"
    | CompositionApproach.DRAMATIC => "dramatic"
    | CompositionApproach.GARNISH_FOCUSED => "garnish_focused" end
}.

#[global] Instance TextureQuality_enum : PyEnum TextureQuality.t := {
  members :=
    [TextureQuality.SMOOTH; TextureQuality.CRYSTALLINE; TextureQuality.CREAMY;
     TextureQuality.OILY; TextureQuality.EFFERVESCENT;
     TextureQuality.TRANSLUCENT; TextureQuality.OPAQUE; TextureQuality.FOAMY];
  name_of m := lit match m with
    | TextureQuality.SMOOTH => "SMOOTH"
    | TextureQuality.CRYSTALLINE => "CRYSTALLINE"
    | TextureQuality.CREAMY => "CREAMY" | TextureQuality.OILY => "OILY"
    | TextureQuality.EFFERVESCENT => "EFFERVESCENT"
    | TextureQuality.TRANSLUCENT => "TRANSLUCENT"
    | TextureQuality.OPAQUE => "OPAQUE" | TextureQuality.FOAMY => "FOAMY" end;
  value_of m := lit match m with
    | TextureQuality.SMOOTH => "smooth"
    | TextureQuality.CRYSTALLINE => "crystalline"
    | TextureQuality.CREAMY => "creamy" | TextureQuality.OILY => "oily"
    | TextureQuality.EFFERVESCENT => "effervescent"
    | TextureQuality.TRANSLUCENT => "translucent"
    | TextureQuality.OPAQUE => "opaque" | TextureQuality.FOAMY => "foamy" end
}.

#[global] Instance TemperatureVibe_enum : PyEnum TemperatureVibe.t := {
  members :=
    [TemperatureVibe.WARM; TemperatureVibe.HOT; TemperatureVibe.COOL;
     TemperatureVibe.ICY; TemperatureVibe.AMBIENT];
  name_of m := lit match m with
    | TemperatureVibe.WARM => "WARM" | TemperatureVibe.HOT => "HOT"
    | TemperatureVibe.COOL => "COOL" | TemperatureVibe.ICY => "ICY"
    | TemperatureVibe.AMBIENT => "AMBIENT" end;
  value_of m := lit match m with
    | TemperatureVibe.WARM => "warm" | TemperatureVibe.HOT => "hot"
    | TemperatureVibe.COOL => "cool" | TemperatureVibe.ICY => "icy"
    | TemperatureVibe.AMBIENT => "ambient" end
}.

(** A lookup table written as a dict literal, read with [.get(key, dflt)]. *)
Definition table_get {K V} `{EqDecision K} (t : list (K * V)) (k : K)
    (dflt : V) : V :=
  match find (fun kv => bool_decide (kv.1 = k)) t with
  | Some kv => kv.2
  | None => dflt
  end.

(** ** Layer 2: the record classes *)

Module FlavorProfile.
Record t := {
  primary_flavor : FlavorType;
  secondary_flavors : list FlavorType;
  complexity : ComplexityLevel;
  warmth_level : Z;
  bitterness : pyval;
  sweetness : pyval;
  richness : pyval
}.
End FlavorProfile.

Module VisualParameters.
Record t := {
  primary_color_category : ColorCategory.t;
  color_palette : pyval;
  lighting_style : LightingStyle;
  primary_mood : MoodDescriptor.t;
  secondary_moods : list MoodDescriptor.t;
  composition_strategy : CompositionApproach.t;
  texture_quality : TextureQuality.t;
  temperature_vibe : TemperatureVibe.t
}.
End VisualParameters.

Module CocktailProfile.
Record t := {
  name : pyval;
  spirit_base : SpiritBase;
  primary_flavor : FlavorType;
  flavor_profile : FlavorProfile.t;
  visual_parameters : VisualParameters.t;
  description : pyval
}.
End CocktailProfile.

(** ** Layer 3: the olog morphisms *)

Module CocktailOlogMorphisms.

Definition warmth_map : list (SpiritBase * Z) :=
  [(RUM, 9); (WHISKEY, 8); (COGNAC, 9); (MEZCAL, 8); (TEQUILA, 7); (GIN, 5);
   (VODKA, 3)].

Definition spirit_base_to_warmth (spirit : SpiritBase) : Z :=
  table_get warmth_map spirit 5.

Definition color_map : list (SpiritBase * ColorCategory.t) :=
  [(RUM, ColorCategory.GOLDEN); (WHISKEY, ColorCategory.AMBER);
   (COGNAC, ColorCategory.AMBER); (MEZCAL, ColorCategory.GOLDEN);
   (TEQUILA, ColorCategory.CLEAR); (GIN, ColorCategory.CLEAR);
   (VODKA, ColorCategory.CLEAR)].

Definition spirit_base_to_color_category (spirit : SpiritBase)
    : ColorCategory.t :=
  table_get color_map spirit ColorCategory.CLEAR.

Definition mood_map : list (FlavorType * MoodDescriptor.t) :=
  [(BITTER, MoodDescriptor.SOPHISTICATED); (SWEET, MoodDescriptor.PLAYFUL);
   (SPIRIT_FORWARD, MoodDescriptor.BOLD); (HERBAL, MoodDescriptor.ELEGANT);
   (FRUITY, MoodDescriptor.TROPICAL); (CREAMY, MoodDescriptor.NOSTALGIC);
   (SMOKY, MoodDescriptor.DARK); (SOUR, MoodDescriptor.BOLD);
   (SPICED, MoodDescriptor.AROMATIC)].

Definition flavor_to_mood (flavor : FlavorType) : MoodDescriptor.t :=
  table_get mood_map flavor MoodDescriptor.SOPHISTICATED.

Definition composition_map : list (ComplexityLevel * CompositionApproach.t) :=
  [(SIMPLE, CompositionApproach.MINIMALIST);
   (MODERATE, CompositionApproach.BALANCED);
   (COMPLEX, CompositionApproach.LAYERED)].

Definition complexity_to_composition (complexity : ComplexityLevel)
    : CompositionApproach.t :=
  table_get composition_map complexity CompositionApproach.BALANCED.

Definition bitterness_to_lighting (bitterness : Z) : LightingStyle :=
  if 7 <=? bitterness then DRAMATIC_SHADOW
  else if 5 <=? bitterness then WARM_SIDE_LIT
  else DIFFUSED_SOFT.

Definition warmth_and_complexity_to_lighting (warmth : Z)
    (complexity : ComplexityLevel) : LightingStyle :=
  if (8 <=? warmth) && bool_decide (complexity = COMPLEX) then GOLDEN_HOUR
  else if 8 <=? warmth then MOODY_AMBER
  else if warmth <=? 4 then CRISP_BACKLIT
  else WARM_SIDE_LIT.

Definition texture_from_components (has_cream has_ice is_effervescent : pyval)
    : TextureQuality.t :=
  if truthy has_cream then TextureQuality.CREAMY
  else if truthy is_effervescent then TextureQuality.EFFERVESCENT
  else if truthy has_ice then TextureQuality.CRYSTALLINE
  else TextureQuality.TRANSLUCENT.

(** The master morphism. The three scores, the palette and the three flags
    come from the raw record as they are. *)
Definition build_visual_parameters (spirit : SpiritBase)
    (primary_flavor : FlavorType) (complexity : ComplexityLevel)
    (bitterness sweetness richness : pyval) (color_palette : pyval)
    (has_cream has_ice is_effervescent : pyval) : result VisualParameters.t :=
  let primary_color := spirit_base_to_color_category spirit in
  let primary_mood := flavor_to_mood primary_flavor in
  let warmth := spirit_base_to_warmth spirit in
  let composition := complexity_to_composition complexity in
  let lighting := warmth_and_complexity_to_lighting warmth complexity in
  let texture := texture_from_components has_cream has_ice is_effervescent in
  let temperature :=
    if 8 <=? warmth then TemperatureVibe.WARM
    else if warmth <=? 3 then TemperatureVibe.ICY
    else TemperatureVibe.AMBIENT in
  let secondary_moods : list MoodDescriptor.t := [] in
  rich ← py_ge richness 7;
  let secondary_moods :=
    if (rich : bool) then secondary_moods ++ [MoodDescriptor.ELEGANT]
    else secondary_moods in
  let secondary_moods :=
    if bool_decide (complexity = COMPLEX)
    then secondary_moods ++ [MoodDescriptor.AROMATIC]
    else secondary_moods in
  sweet ← py_ge sweetness 6;
  let secondary_moods :=
    if (sweet : bool) then secondary_moods ++ [MoodDescriptor.PLAYFUL]
    else secondary_moods in
  Ok {| VisualParameters.primary_color_category := primary_color;
        VisualParameters.color_palette := color_palette;
        VisualParameters.lighting_style := lighting;
        VisualParameters.primary_mood := primary_mood;
        VisualParameters.secondary_moods := secondary_moods;
        VisualParameters.composition_strategy := composition;
        VisualParameters.texture_quality := texture;
        VisualParameters.temperature_vibe := temperature |}.

Definition cocktail_to_profile (cocktail_data : Dict)
    : result CocktailProfile.t :=
  spirit_raw ← getitem cocktail_data (lit "spirit_base");
  spirit_str ← py_str_lower spirit_raw;
  spirit ← by_value SpiritBase spirit_str;
  flavor_raw ← getitem cocktail_data (lit "primary_flavor");
  primary_flavor_str ← py_str_lower flavor_raw;
  primary_flavor ← by_name FlavorType (py_upper primary_flavor_str);
  complexity_str ←
    py_str_lower (get cocktail_data (lit "complexity") (VStr (lit "moderate")));
  complexity ← by_value ComplexityLevel complexity_str;
  let bitterness := get cocktail_data (lit "bitterness") (VInt 5) in
  let sweetness := get cocktail_data (lit "sweetness") (VInt 5) in
  let richness := get cocktail_data (lit "richness") (VInt 5) in
  let flavor_profile_obj :=
    {| FlavorProfile.primary_flavor := primary_flavor;
       FlavorProfile.secondary_flavors := [];
       FlavorProfile.complexity := complexity;
       FlavorProfile.warmth_level := spirit_base_to_warmth spirit;
       FlavorProfile.bitterness := bitterness;
       FlavorProfile.sweetness := sweetness;
       FlavorProfile.richness := richness |} in
  visual ←
    build_visual_parameters spirit primary_flavor complexity bitterness
      sweetness richness
      (get cocktail_data (lit "color_palette") (VList []))
      (get cocktail_data (lit "has_cream") (VBool false))
      (get cocktail_data (lit "has_ice") (VBool true))
      (get cocktail_data (lit "is_effervescent") (VBool false));
  name ← getitem cocktail_data (lit "name");
  Ok {| CocktailProfile.name := name;
        CocktailProfile.spirit_base := spirit;
        CocktailProfile.primary_flavor := primary_flavor;
        CocktailProfile.flavor_profile := flavor_profile_obj;
        CocktailProfile.visual_parameters := visual;
        CocktailProfile.description :=
          get cocktail_data (lit "description") (VStr []) |}.

End CocktailOlogMorphisms.

(** ** The taxonomy data of the server *)

Definition COCKTAIL_TAXONOMY : list (str * Dict) := [
  (lit "negroni", list_to_map [
     (lit "name", VStr (lit "Negroni"));
     (lit "spirit_base", VStr (lit "gin"));
     (lit "primary_flavor", VStr (lit "bitter"));
     (lit "complexity", VStr (lit "simple"));
     (lit "bitterness", VInt 8);
     (lit "sweetness", VInt 3);
     (lit "richness", VInt 6);
     (lit "color_palette",
      VList [VStr (lit "#8B1A1A"); VStr (lit "#D2691E"); VStr (lit "#FFA500")]);
     (lit "has_cream", VBool false);
     (lit "has_ice", VBool true);
     (lit "is_effervescent", VBool false);
     (lit "description", VStr (lit
       "Classic aperitivo: gin, Campari, vermouth rosso. Bitter, bold, balanced."))]);
  (lit "mai_tai", list_to_map [
     (lit "name", VStr (lit "Mai Tai"));
     (lit "spirit_base", VStr (lit "rum"));
     (lit "primary_flavor", VStr (lit "fruity"));
     (lit "complexity", VStr (lit "complex"));
     (lit "bitterness", VInt 2);
     (lit "sweetness", VInt 6);
     (lit "richness", VInt 8);
     (lit "color_palette",
      VList [VStr (lit "#FF6B35"); VStr (lit "#F7931E"); VStr (lit "#8B4513");
             VStr (lit "#00A86B")]);
     (lit "has_cream", VBool false);
     (lit "has_ice", VBool true);
     (lit "is_effervescent", VBool false);
     (lit "description", VStr (
       lit "Tiki classic: aged rum, lime, orgeat, cura" ++ [0xE7%N] ++
       lit "ao. Sweet, tropical, complex."))]);
  (lit "daiquiri", list_to_map [
     (lit "name", VStr (lit "Daiquiri"));
     (lit "spirit_base", VStr (lit "rum"));
     (lit "primary_flavor", VStr (lit "sour"));
     (lit "complexity", VStr (lit "simple"));
     (lit "bitterness", VInt 1);
     (lit "sweetness", VInt 3);
     (lit "richness", VInt 3);
     (lit "color_palette",
      VList [VStr (lit "#FFF8DC"); VStr (lit "#FFE4B5"); VStr (lit "#F0E68C")]);
     (lit "has_cream", VBool false);
     (lit "has_ice", VBool true);
     (lit "is_effervescent", VBool false);
     (lit "description", VStr (lit
       "Elegant simplicity: white rum, fresh lime, simple syrup."))]);
  (lit "old_fashioned", list_to_map [
     (lit "name", VStr (lit "Old Fashioned"));
     (lit "spirit_base", VStr (lit "whiskey"));
     (lit "primary_flavor", VStr (lit "spirit_forward"));
     (lit "complexity", VStr (lit "simple"));
     (lit "bitterness", VInt 4);
     (lit "sweetness", VInt 2);
     (lit "richness", VInt 7);
     (lit "color_palette",
      VList [VStr (lit "#8B4513"); VStr (lit "#A0522D"); VStr (lit "#654321")]);
     (lit "has_cream", VBool false);
     (lit "has_ice", VBool true);
     (lit "is_effervescent", VBool false);
     (lit "description", VStr (lit
       "Timeless classic: whiskey, sugar, bitters, orange twist."))]);
  (lit "mojito", list_to_map [
     (lit "name", VStr (lit "Mojito"));
     (lit "spirit_base", VStr (lit "rum"));
     (lit "primary_flavor", VStr (lit "herbal"));
     (lit "complexity", VStr (lit "moderate"));
     (lit "bitterness", VInt 1);
     (lit "sweetness", VInt 4);
     (lit "richness", VInt 2);
     (lit "color_palette",
      VList [VStr (lit "#00AA66"); VStr (lit "#FFE4B5"); VStr (lit "#FFFFFF")]);
     (lit "has_cream", VBool false);
     (lit "has_ice", VBool true);
     (lit "is_effervescent", VBool true);
     (lit "description", VStr (lit
       "Refreshing summer drink: white rum, mint, lime, soda, sugar."))]);
  (lit "margarita", list_to_map [
     (lit "name", VStr (lit "Margarita"));
     (lit "spirit_base", VStr (lit "tequila"));
     (lit "primary_flavor", VStr (lit "sour"));
     (lit "complexity", VStr (lit "moderate"));
     (lit "bitterness", VInt 0);
     (lit "sweetness", VInt 4);
     (lit "richness", VInt 3);
     (lit "color_palette",
      VList [VStr (lit "#FFE4B5"); VStr (lit "#FFA500"); VStr (lit "#FF6347")]);
     (lit "has_cream", VBool false);
     (lit "has_ice", VBool true);
     (lit "is_effervescent", VBool false);
     (lit "description", VStr (lit
       "Iconic: tequila, lime, triple sec, salt rim."))]);
  (lit "espresso_martini", list_to_map [
     (lit "name", VStr (lit "Espresso Martini"));
     (lit "spirit_base", VStr (lit "vodka"));
     (lit "primary_flavor", VStr (lit "bitter"));
     (lit "complexity", VStr (lit "moderate"));
     (lit "bitterness", VInt 6);
     (lit "sweetness", VInt 5);
     (lit "richness", VInt 8);
     (lit "color_palette",
      VList [VStr (lit "#2F4F4F"); VStr (lit "#8B7355"); VStr (lit "#FFFFFF")]);
     (lit "has_cream", VBool false);
     (lit "has_ice", VBool false);
     (lit "is_effervescent", VBool false);
     (lit "description", VStr (lit
       "Modern sophistication: vodka, coffee liqueur, espresso, cream."))]);
  (lit "sazerac", list_to_map [
     (lit "name", VStr (lit "Sazerac"));
     (lit "spirit_base", VStr (lit "whiskey"));
     (lit "primary_flavor", VStr (lit "herbal"));
     (lit "complexity", VStr (lit "simple"));
     (lit "bitterness", VInt 5);
     (lit "sweetness", VInt 1);
     (lit "richness", VInt 6);
     (lit "color_palette",
      VList [VStr (lit "#A0522D"); VStr (lit "#8B4513"); VStr (lit "#FFD700")]);
     (lit "has_cream", VBool false);
     (lit "has_ice", VBool true);
     (lit "is_effervescent", VBool false);
     (lit "description", VStr (lit
       "New Orleans classic: rye, absinthe, Peychaud's bitters."))])
].

(** ** Dicts that keep insertion order

    The profile cache and the responses of the tools are dicts whose items
    are read in insertion order. *)

(** [k in d] *)
Definition dict_contains {V} (k : str) (d : list (str * V)) : bool :=
  existsb (fun kv => str_eqb kv.1 k) d.

(** [d[k]] *)
Definition dict_getitem {V} (k : str) (d : list (str * V)) : result V :=
  match find (fun kv => str_eqb kv.1 k) d with
  | Some kv => Ok kv.2
  | None => Raise (KeyError k)
  end.

(** [d[k] = v]: a key already present keeps its place. *)
Fixpoint dict_setitem {V} (k : str) (v : V) (d : list (str * V))
    : list (str * V) :=
  match d with
  | [] => [(k, v)]
  | (k', v') :: rest =>
      if str_eqb k' k then (k, v) :: rest
      else (k', v') :: dict_setitem k v rest
  end.

(** What a tool returns: a tree of dicts and lists over plain values. *)
#[warnings="-register-all"] Inductive resp : Type :=
  | RVal (v : pyval)
  | RList (l : list resp)
  | RDict (d : list (str * resp)).

Definition RStr (s : str) : resp := RVal (VStr s).
Definition RStrs (l : list str) : resp := RVal (VList (map VStr l)).

(** [VisualParameters.to_dict] *)
Definition to_dict (self : VisualParameters.t) : resp :=
  RDict [
    (lit "primary_color",
     RStr (value_of (VisualParameters.primary_color_category self)));
    (lit "color_palette", RVal (VisualParameters.color_palette self));
    (lit "lighting", RStr (value_of (VisualParameters.lighting_style self)));
    (lit "mood", RStr (value_of (VisualParameters.primary_mood self)));
    (lit "secondary_moods",
     RStrs (map value_of (VisualParameters.secondary_moods self)));
    (lit "composition",
     RStr (value_of (VisualParameters.composition_strategy self)));
    (lit "texture", RStr (value_of (VisualParameters.texture_quality self)));
    (lit "temperature",
     RStr (value_of (VisualParameters.temperature_vibe self)))].

(** ** The server: profile cache and tools *)

(** The state of the process: the module-level cache, and what has been
    printed. A printed error line is kept as the key and the exception it
    is formatted from. *)
Record state := {
  _profile_cache : list (str * CocktailProfile.t);
  stdout : list (str * exn)
}.

Definition initial_state : state :=
  {| _profile_cache := []; stdout := [] |}.

(** The key the three name-taking tools compute:
    [cocktail_name.lower().replace(" ", "_").replace("-", "_")]. *)
Definition lookup_key (cocktail_name : str) : str :=
  py_replace 0x2D 0x5F (py_replace 0x20 0x5F (py_lower cocktail_name)).

(** [[visual.primary_mood.value] + [m.value for m in visual.secondary_moods]] *)
Definition mood_keywords (visual : VisualParameters.t) : list str :=
  [value_of (VisualParameters.primary_mood visual)] ++
  map value_of (VisualParameters.secondary_moods visual).

Definition not_found (cocktail_name : str) : resp :=
  RDict [(lit "error",
          RStr (lit "Cocktail '" ++ cocktail_name ++ lit "' not found"))].

Section Tools.

(** The table the cache is filled from. The source reads the module-level
    [COCKTAIL_TAXONOMY]; the table is a variable here, so that the handling
    of a record that fails to convert can be stated. *)
Variable taxonomy : list (str * Dict).

Definition _ensure_cached (st : state) : state :=
  match _profile_cache st with
  | [] =>
      fold_left
        (fun st '(cocktail_key, cocktail_data) =>
           match CocktailOlogMorphisms.cocktail_to_profile cocktail_data with
           | Ok profile =>
               {| _profile_cache :=
                    dict_setitem cocktail_key profile (_profile_cache st);
                  stdout := stdout st |}
           | Raise e =>
               {| _profile_cache := _profile_cache st;
                  stdout := stdout st ++ [(cocktail_key, e)] |}
           end)
        taxonomy st
  | _ :: _ => st
  end.

Definition list_cocktails (st : state) : result resp * state :=
  let st := _ensure_cached st in
  let cocktails :=
    map (fun '(key, profile) =>
           RDict [
             (lit "id", RStr key);
             (lit "name", RVal (CocktailProfile.name profile));
             (lit "spirit_base",
              RStr (value_of (CocktailProfile.spirit_base profile)));
             (lit "primary_flavor",
              RStr (value_of (CocktailProfile.primary_flavor profile)));
             (lit "description", RVal (CocktailProfile.description profile))])
        (_profile_cache st) in
  (Ok (RDict [
     (lit "cocktails", RList cocktails);
     (lit "count", RVal (VInt (Z.of_nat (length cocktails))))]), st).

Definition get_cocktail_profile (cocktail_name : str) (st : state)
    : result resp * state :=
  let st := _ensure_cached st in
  let key := lookup_key cocktail_name in
  if negb (dict_contains key (_profile_cache st))
  then (Ok (not_found cocktail_name), st)
  else
    (profile ← dict_getitem key (_profile_cache st);
     let fp := CocktailProfile.flavor_profile profile in
     Ok (RDict [
       (lit "name", RVal (CocktailProfile.name profile));
       (lit "spirit_base",
        RStr (value_of (CocktailProfile.spirit_base profile)));
       (lit "primary_flavor",
        RStr (value_of (CocktailProfile.primary_flavor profile)));
       (lit "flavor_profile", RDict [
          (lit "complexity", RStr (value_of (FlavorProfile.complexity fp)));
          (lit "bitterness", RVal (FlavorProfile.bitterness fp));
          (lit "sweetness", RVal (FlavorProfile.sweetness fp));
          (lit "richness", RVal (FlavorProfile.richness fp));
          (lit "warmth_level", RVal (VInt (FlavorProfile.warmth_level fp)))]);
       (lit "description", RVal (CocktailProfile.description profile))]),
     st).

Definition get_visual_parameters (cocktail_name : str) (st : state)
    : result resp * state :=
  let st := _ensure_cached st in
  let key := lookup_key cocktail_name in
  if negb (dict_contains key (_profile_cache st))
  then (Ok (not_found cocktail_name), st)
  else
    (profile ← dict_getitem key (_profile_cache st);
     let visual := CocktailProfile.visual_parameters profile in
     Ok (RDict [
       (lit "cocktail", RVal (CocktailProfile.name profile));
       (lit "visual_parameters", to_dict visual);
       (lit "composition_strategy",
        RStr (value_of (VisualParameters.composition_strategy visual)));
       (lit "temperature_vibe",
        RStr (value_of (VisualParameters.temperature_vibe visual)));
       (lit "mood_keywords", RStrs (mood_keywords visual))]),
     st).

Definition enhance_prompt_with_cocktail (base_prompt cocktail_name : str)
    (st : state) : result resp * state :=
  let st := _ensure_cached st in
  let key := lookup_key cocktail_name in
  if negb (dict_contains key (_profile_cache st))
  then (Ok (not_found cocktail_name), st)
  else
    (profile ← dict_getitem key (_profile_cache st);
     let visual := CocktailProfile.visual_parameters profile in
     let lighting := value_of (VisualParameters.lighting_style visual) in
     let composition :=
       value_of (VisualParameters.composition_strategy visual) in
     let texture := value_of (VisualParameters.texture_quality visual) in
     first_two ← py_slice2 (VisualParameters.color_palette visual);
     palette ← py_join_val (lit ", ") first_two;
     Ok (RDict [
       (lit "original_prompt", RStr base_prompt);
       (lit "cocktail", RVal (CocktailProfile.name profile));
       (lit "color_direction", RVal (VisualParameters.color_palette visual));
       (lit "lighting_style", RStr lighting);
       (lit "mood_keywords", RStrs (mood_keywords visual));
       (lit "composition_guide", RStr composition);
       (lit "texture_notes", RStr texture);
       (lit "temperature_vibe",
        RStr (value_of (VisualParameters.temperature_vibe visual)));
       (lit "suggested_enhancement", RStr (
          lit "Add these aesthetic qualities to your prompt: " ++
          py_join (lit ", ") (mood_keywords visual) ++ lit ". " ++
          lit "Use " ++ lighting ++ lit " lighting. " ++
          lit "Color palette suggestion: " ++ palette ++ lit ". " ++
          lit "Composition: " ++ composition ++ lit ". " ++
          lit "Texture: " ++ texture ++ lit "."))]),
     st).

Definition search_cocktails_by_flavor (flavor : str) (st : state)
    : result resp * state :=
  let st := _ensure_cached st in
  let flavor_lower := py_lower flavor in
  let matching :=
    flat_map (fun '(key, profile) =>
      if str_eqb (value_of (CocktailProfile.primary_flavor profile))
                 flavor_lower
      then [RDict [
              (lit "name", RVal (CocktailProfile.name profile));
              (lit "id", RStr key);
              (lit "description",
               RVal (CocktailProfile.description profile))]]
      else [])
      (_profile_cache st) in
  (Ok (RDict [
     (lit "flavor", RStr flavor_lower);
     (lit "matches", RList matching);
     (lit "count", RVal (VInt (Z.of_nat (length matching))))]), st).

End Tools.

Definition spirit_warmth_map : list (str * Z) :=
  [(lit "rum", 9); (lit "whiskey", 8); (lit "cognac", 9); (lit "mezcal", 8);
   (lit "tequila", 7); (lit "gin", 5); (lit "vodka", 3)].

(** [get_spirit_warmth] reads neither the table nor the cache. *)
Definition get_spirit_warmth (spirit_name : str) : result resp :=
  let spirit_lower := py_lower spirit_name in
  let warmth_map := spirit_warmth_map in
  if negb (dict_contains spirit_lower warmth_map)
  then Ok (RDict [(lit "error",
                   RStr (lit "Spirit '" ++ spirit_name ++
                         lit "' not recognized"))])
  else
    warmth ← dict_getitem spirit_lower warmth_map;
    let interpretation :=
      if 8 <=? warmth then lit "very warm, golden, nostalgic"
      else if 6 <=? warmth then lit "warm, moderate, balanced"
      else lit "cool, crisp, clean" in
    Ok (RDict [
      (lit "spirit", RStr spirit_lower);
      (lit "warmth_level", RVal (VInt warmth));
      (lit "interpretation", RStr interpretation)]).

(** ** The rules as the specification words them *)

(** The final lighting rule: four cases on warmth and complexity. *)
Inductive final_lighting_rule : Z -> ComplexityLevel -> LightingStyle -> Prop :=
  | rule_golden_hour w :
      8 <= w -> final_lighting_rule w COMPLEX GOLDEN_HOUR
  | rule_moody_amber w c :
      8 <= w -> c <> COMPLEX -> final_lighting_rule w c MOODY_AMBER
  | rule_crisp_backlit w c :
      w <= 4 -> final_lighting_rule w c CRISP_BACKLIT
  | rule_warm_side_lit w c :
      4 < w < 8 -> final_lighting_rule w c WARM_SIDE_LIT.

(** The secondary moods: three threshold checks, in this order, each adding
    at most one mood. *)
Definition secondary_moods_rule (richness : Z) (complexity : ComplexityLevel)
    (sweetness : Z) : list MoodDescriptor.t :=
  (if decide (7 <= richness) then [MoodDescriptor.ELEGANT] else []) ++
  (if decide (complexity = COMPLEX) then [MoodDescriptor.AROMATIC] else []) ++
  (if decide (6 <= sweetness) then [MoodDescriptor.PLAYFUL] else []).

(** The keys [cocktail_to_profile] reads, in the order it reads them. *)
Definition record_keys : list str :=
  [lit "spirit_base"; lit "primary_flavor"; lit "complexity";
   lit "bitterness"; lit "sweetness"; lit "richness"; lit "color_palette";
   lit "has_cream"; lit "has_ice"; lit "is_effervescent"; lit "name";
   lit "description"].

(** The record stored under a key of a table. *)
Definition record_of (taxonomy : list (str * Dict)) (key : str) : Dict :=
  match find (fun kv => str_eqb kv.1 key) taxonomy with
  | Some kv => kv.2
  | None => ∅
  end.

Definition sazerac : Dict := record_of COCKTAIL_TAXONOMY (lit "sazerac").

(** The sazerac record with a richness of 7 instead of 6. *)
Definition rich_sazerac : Dict := <[lit "richness" := VInt 7]> sazerac.

(** The three bands of the warmth interpretation. *)
Definition interpretation_band (warmth : Z) : str :=
  if decide (8 <= warmth) then lit "very warm, golden, nostalgic"
  else if decide (6 <= warmth) then lit "warm, moderate, balanced"
  else lit "cool, crisp, clean".

(** The errors raised by a failed lookup in an enumeration. *)
Definition lookup_error (e : exn) : Prop :=
  match e with
  | KeyError _ | ValueError _ => True
  | AttributeError | TypeError => False
  end.

(** A record whose three labels are strings (the complexity may be absent)
    and one of them is rejected by the lookup the conversion makes: the
    lowercase spirit base is the value of no spirit, or the lowercase
    primary flavor put in uppercase is the name of no flavor, or the
    lowercase complexity is the value of no complexity level. *)
Definition unrecognized_label (d : Dict) : Prop :=
  exists s f c,
    d !! lit "spirit_base" = Some (VStr s) /\
    d !! lit "primary_flavor" = Some (VStr f) /\
    get d (lit "complexity") (VStr (lit "moderate")) = VStr c /\
    ((forall m : SpiritBase, value_of m <> py_lower s) \/
     (forall m : FlavorType, name_of m <> py_upper (py_lower f)) \/
     (forall m : ComplexityLevel, value_of m <> py_lower c)).

(** The records of a table that convert, with their profiles, and those
    that do not, with the exception raised. *)
Definition converted (taxonomy : list (str * Dict))
    : list (str * CocktailProfile.t) :=
  flat_map (fun '(key, data) =>
              match CocktailOlogMorphisms.cocktail_to_profile data with
              | Ok profile => [(key, profile)]
              | Raise _ => []
              end) taxonomy.

Definition failed (taxonomy : list (str * Dict)) : list (str * exn) :=
  flat_map (fun '(key, data) =>
              match CocktailOlogMorphisms.cocktail_to_profile data with
              | Ok _ => []
              | Raise e => [(key, e)]
              end) taxonomy.

(** Sample records: a spirit base that is no member of [SpiritBase], and
    a primary flavor written with a long s. *)
Definition absinthe_drip : Dict := list_to_map [
  (lit "name", VStr (lit "Absinthe Drip"));
  (lit "spirit_base", VStr (lit "Absinthe"));
  (lit "primary_flavor", VStr (lit "herbal"));
  (lit "complexity", VStr (lit "simple"))].

Definition long_s_sour : Dict := list_to_map [
  (lit "name", VStr (lit "Whiskey Sour"));
  (lit "spirit_base", VStr (lit "whiskey"));
  (lit "primary_flavor", VStr (0x17F%N :: lit "our"))].

Definition mixed_taxonomy : list (str * Dict) :=
  [(lit "sazerac", sazerac); (lit "absinthe_drip", absinthe_drip);
   (lit "whiskey_sour", long_s_sour)].

(** ** Vocabulary of the further properties *)

(** The values [>=] compares with an integer: [int] and its subclass
    [bool]. *)
Definition is_number (v : pyval) : bool :=
  match v with
  | VInt _ | VBool _ => true
  | VNone | VStr _ | VList _ => false
  end.

(** A record on which every step of the conversion goes through: the three
    labels are strings that their lookups accept (an absent complexity
    counts as moderate), richness and sweetness are numbers or absent, and
    there is a name. Nothing is asked of the bitterness, the palette, the
    flags or the description. *)
Definition well_formed_record (d : Dict) : Prop :=
  exists s f c,
    d !! lit "spirit_base" = Some (VStr s) /\
    is_Ok (by_value SpiritBase (py_lower s)) /\
    d !! lit "primary_flavor" = Some (VStr f) /\
    is_Ok (by_name FlavorType (py_upper (py_lower f))) /\
    get d (lit "complexity") (VStr (lit "moderate")) = VStr c /\
    is_Ok (by_value ComplexityLevel (py_lower c)) /\
    is_number (get d (lit "richness") (VInt 5)) = true /\
    is_number (get d (lit "sweetness") (VInt 5)) = true /\
    is_Some (d !! lit "name").

(** The body of the loop of [_ensure_cached]: one record is converted and
    cached, or its error is printed. *)
Definition cache_record (st : state) (item : str * Dict) : state :=
  let '(cocktail_key, cocktail_data) := item in
  match CocktailOlogMorphisms.cocktail_to_profile cocktail_data with
  | Ok profile =>
      {| _profile_cache :=
           dict_setitem cocktail_key profile (_profile_cache st);
         stdout := stdout st |}
  | Raise e =>
      {| _profile_cache := _profile_cache st;
         stdout := stdout st ++ [(cocktail_key, e)] |}
  end.

(** A palette whose first two items [", ".join] accepts: a string, or a
    list whose first two items are strings. *)
Definition palette_joinable (palette : pyval) : bool :=
  match palette with
  | VStr _ => true
  | VList l =>
      forallb (fun v => match v with VStr _ => true | _ => false end)
        (take 2 l)
  | VNone | VBool _ | VInt _ => false
  end.

(** * Properties *)

Import CocktailOlogMorphisms.

(** ** The mapping functions *)

Lemma warmth_and_complexity_to_lighting_rule w c :
  final_lighting_rule w c (warmth_and_complexity_to_lighting w c).
Proof.
  unfold warmth_and_complexity_to_lighting.
  destruct (Z.leb_spec 8 w) as [Hw | Hw]; simpl.
  - case_bool_decide as Hc.
    + subst c. by constructor.
    + by constructor.
  - destruct (Z.leb_spec w 4); constructor; lia.
Qed.

Lemma final_lighting_rule_functional w c l1 l2 :
  final_lighting_rule w c l1 -> final_lighting_rule w c l2 -> l1 = l2.
Proof.
  intros H1 H2; inversion H1; subst; inversion H2; subst;
    first [reflexivity | congruence | lia].
Qed.

(** C1. The final lighting style is golden_hour when warmth >= 8 and the
    complexity is complex, moody_amber when warmth >= 8 and the complexity is
    not complex, crisp_backlit when warmth <= 4 and warm_side_lit otherwise:
    the mapping returns a style exactly when the four-case rule gives it. The
    four sample points of the specification follow. *)
Theorem C1_final_lighting_style :
  (forall w c l,
     warmth_and_complexity_to_lighting w c = l <-> final_lighting_rule w c l) /\
  value_of (warmth_and_complexity_to_lighting 9 COMPLEX) = lit "golden_hour" /\
  value_of (warmth_and_complexity_to_lighting 9 SIMPLE) = lit "moody_amber" /\
  (forall c,
     value_of (warmth_and_complexity_to_lighting 3 c) = lit "crisp_backlit") /\
  value_of (warmth_and_complexity_to_lighting 6 MODERATE) = lit "warm_side_lit".
Proof.
  split; [| repeat split; try reflexivity; by intros []].
  intros w c l; split.
  - intros <-. apply warmth_and_complexity_to_lighting_rule.
  - intros H. eapply final_lighting_rule_functional; [| exact H].
    apply warmth_and_complexity_to_lighting_rule.
Qed.

Lemma build_visual_parameters_int spirit flavor complexity bitterness
    (sweetness richness : Z) palette has_cream has_ice is_effervescent :
  exists vp,
    build_visual_parameters spirit flavor complexity bitterness
      (VInt sweetness) (VInt richness) palette has_cream has_ice
      is_effervescent = Ok vp /\
    VisualParameters.primary_mood vp = flavor_to_mood flavor /\
    VisualParameters.lighting_style vp =
      warmth_and_complexity_to_lighting (spirit_base_to_warmth spirit)
        complexity /\
    VisualParameters.secondary_moods vp =
      secondary_moods_rule richness complexity sweetness.
Proof.
  eexists; split; [reflexivity |]. repeat split. simpl.
  unfold secondary_moods_rule.
  destruct (Z.leb_spec 7 richness), (Z.leb_spec 6 sweetness);
    repeat case_decide; repeat case_bool_decide;
    first [reflexivity | lia | congruence].
Qed.

(** C2. On integer scores the orchestration function returns a record whose
    secondary moods are the outcome of three independent checks taken in
    order: richness >= 7 adds elegant, complexity = complex adds aromatic,
    sweetness >= 6 adds playful. Richness 8, complex, sweetness 7 gives
    elegant, aromatic, playful in this order; richness 2, simple,
    sweetness 1 gives the empty list. *)
Theorem C2_secondary_moods spirit flavor complexity bitterness
    (sweetness richness : Z) palette has_cream has_ice is_effervescent :
  (exists vp,
     build_visual_parameters spirit flavor complexity bitterness
       (VInt sweetness) (VInt richness) palette has_cream has_ice
       is_effervescent = Ok vp /\
     VisualParameters.secondary_moods vp =
       (if decide (7 <= richness) then [MoodDescriptor.ELEGANT] else []) ++
       (if decide (complexity = COMPLEX) then [MoodDescriptor.AROMATIC]
        else []) ++
       (if decide (6 <= sweetness) then [MoodDescriptor.PLAYFUL] else [])) /\
  (exists vp,
     build_visual_parameters spirit flavor COMPLEX bitterness (VInt 7)
       (VInt 8) palette has_cream has_ice is_effervescent = Ok vp /\
     map value_of (VisualParameters.secondary_moods vp) =
       [lit "elegant"; lit "aromatic"; lit "playful"]) /\
  (exists vp,
     build_visual_parameters spirit flavor SIMPLE bitterness (VInt 1)
       (VInt 2) palette has_cream has_ice is_effervescent = Ok vp /\
     VisualParameters.secondary_moods vp = []).
Proof.
  split; [| split].
  - destruct (build_visual_parameters_int spirit flavor complexity bitterness
      sweetness richness palette has_cream has_ice is_effervescent)
      as (vp & Hvp & _ & _ & Hsec).
    exists vp; split; [exact Hvp | exact Hsec].
  - eexists; split; reflexivity.
  - eexists; split; reflexivity.
Qed.

Lemma texture_from_components_truthy has_cream has_ice is_effervescent :
  texture_from_components has_cream has_ice is_effervescent =
  texture_from_components (VBool (truthy has_cream)) (VBool (truthy has_ice))
    (VBool (truthy is_effervescent)).
Proof. reflexivity. Qed.

(** C3. The texture follows the priority cream, then effervescence, then
    ice, then none: cream gives creamy whatever the other two flags are;
    without cream, effervescence gives effervescent whatever the ice flag
    is; with neither, ice gives crystalline; with none of the three the
    texture is translucent. The arguments are read in the order of the
    source: cream, ice, effervescent. *)
Theorem C3_texture_priority :
  (forall has_ice is_effervescent : bool,
     texture_from_components (VBool true) (VBool has_ice)
       (VBool is_effervescent) = TextureQuality.CREAMY) /\
  (forall has_ice : bool,
     texture_from_components (VBool false) (VBool has_ice) (VBool true) =
     TextureQuality.EFFERVESCENT) /\
  texture_from_components (VBool false) (VBool true) (VBool false) =
    TextureQuality.CRYSTALLINE /\
  texture_from_components (VBool false) (VBool false) (VBool false) =
    TextureQuality.TRANSLUCENT /\
  map value_of
    [texture_from_components (VBool true) (VBool true) (VBool true);
     texture_from_components (VBool false) (VBool true) (VBool true);
     texture_from_components (VBool false) (VBool true) (VBool false);
     texture_from_components (VBool false) (VBool false) (VBool false)] =
  [lit "creamy"; lit "effervescent"; lit "crystalline"; lit "translucent"].
Proof. repeat split. Qed.

(** C4. The orchestration function does not read its bitterness argument:
    two calls that differ in the bitterness only return the same result, and
    the lighting style of the result is the one of the warmth and complexity
    rule, whatever [bitterness_to_lighting] would give. *)
Theorem C4_bitterness_not_consumed spirit flavor complexity
    (bitterness1 bitterness2 sweetness richness palette : pyval)
    (has_cream has_ice is_effervescent : pyval) :
  build_visual_parameters spirit flavor complexity bitterness1 sweetness
    richness palette has_cream has_ice is_effervescent =
  build_visual_parameters spirit flavor complexity bitterness2 sweetness
    richness palette has_cream has_ice is_effervescent /\
  forall vp,
    build_visual_parameters spirit flavor complexity bitterness1 sweetness
      richness palette has_cream has_ice is_effervescent = Ok vp ->
    VisualParameters.lighting_style vp =
      warmth_and_complexity_to_lighting (spirit_base_to_warmth spirit)
        complexity.
Proof.
  split; [reflexivity |].
  intros vp. unfold build_visual_parameters.
  destruct (py_ge richness 7) as [rich | e]; simpl; [| discriminate].
  destruct (py_ge sweetness 6) as [sweet | e]; simpl; [| discriminate].
  intros [= <-]. reflexivity.
Qed.

(** ** Record-to-profile conversion *)

Lemma cocktail_to_profile_ext (d d' : Dict) :
  Forall (fun k => d' !! k = d !! k) record_keys ->
  cocktail_to_profile d' = cocktail_to_profile d.
Proof.
  unfold record_keys. intros H.
  repeat match goal with
         | H : Forall _ (_ :: _) |- _ => apply Forall_cons in H as [? H]
         end.
  unfold cocktail_to_profile, getitem, get.
  repeat match goal with
         | E : d' !! _ = d !! _ |- _ => rewrite E; clear E
         end.
  reflexivity.
Qed.

(** C5. Conversion is a function of the twelve fields it reads and of
    nothing else: when it succeeds on a record, it returns the same profile,
    field for field, on every record that holds the same values under these
    twelve keys, hence on the same record again. *)
Theorem C5_conversion_deterministic (d d' : Dict) (p : CocktailProfile.t) :
  cocktail_to_profile d = Ok p ->
  Forall (fun k => d' !! k = d !! k) record_keys ->
  cocktail_to_profile d' = Ok p.
Proof. intros Hp Hagree. by rewrite (cocktail_to_profile_ext d d'). Qed.

Lemma C5_conversion_deterministic_witness :
  exists p,
    cocktail_to_profile sazerac = Ok p /\
    cocktail_to_profile sazerac = Ok p /\
    cocktail_to_profile (<[lit "garnish" := VStr (lit "lemon peel")]> sazerac)
      = Ok p.
Proof.
  eexists. split; [vm_compute; reflexivity |]. split.
  - apply (C5_conversion_deterministic sazerac sazerac);
      [vm_compute; reflexivity | by apply Forall_forall].
  - apply (C5_conversion_deterministic sazerac);
      [vm_compute; reflexivity |].
    unfold record_keys. repeat constructor.
Defined.

(** ** The query interface *)

Lemma dict_getitem_contains {V} (k : str) (d : list (str * V)) (v : V) :
  dict_getitem k d = Ok v -> dict_contains k d = true.
Proof.
  unfold dict_getitem, dict_contains.
  induction d as [| [k' v'] d IH]; simpl; [discriminate |].
  destruct (str_eqb k' k); simpl; [reflexivity | exact IH].
Qed.

Lemma dict_contains_getitem {V} (k : str) (d : list (str * V)) :
  dict_contains k d = true -> exists v, dict_getitem k d = Ok v.
Proof.
  unfold dict_getitem, dict_contains.
  induction d as [| [k' v'] d IH]; simpl; [discriminate |].
  destruct (str_eqb k' k); simpl; [by eexists | exact IH].
Qed.

(** C7. A name whose key is not in the cache once the cache has been filled
    makes each of the three name-taking tools return, without raising, a
    dict that holds one [error] entry, the not-found message for the name
    as given; the state is the one left by the filling of the cache. *)
Theorem C7_unknown_name_structured_error (taxonomy : list (str * Dict))
    (st : state) (cocktail_name : str) :
  dict_contains (lookup_key cocktail_name)
    (_profile_cache (_ensure_cached taxonomy st)) = false ->
  let error :=
    RDict [(lit "error",
            RStr (lit "Cocktail '" ++ cocktail_name ++ lit "' not found"))] in
  get_cocktail_profile taxonomy cocktail_name st =
    (Ok error, _ensure_cached taxonomy st) /\
  get_visual_parameters taxonomy cocktail_name st =
    (Ok error, _ensure_cached taxonomy st) /\
  forall base_prompt,
    enhance_prompt_with_cocktail taxonomy base_prompt cocktail_name st =
      (Ok error, _ensure_cached taxonomy st).
Proof.
  intros Habsent error.
  unfold get_cocktail_profile, get_visual_parameters,
    enhance_prompt_with_cocktail.
  rewrite Habsent. simpl. by repeat split.
Qed.

Lemma C7_unknown_name_structured_error_witness :
  (get_cocktail_profile COCKTAIL_TAXONOMY (lit "Cosmopolitan") initial_state).1
    = Ok (RDict [(lit "error", RStr (lit "Cocktail 'Cosmopolitan' not found"))])
  /\
  (get_visual_parameters COCKTAIL_TAXONOMY (lit "Cosmopolitan") initial_state).1
    = Ok (RDict [(lit "error", RStr (lit "Cocktail 'Cosmopolitan' not found"))])
  /\
  (enhance_prompt_with_cocktail COCKTAIL_TAXONOMY (lit "a bar at dusk")
     (lit "Cosmopolitan") initial_state).1
    = Ok (RDict [(lit "error", RStr (lit "Cocktail 'Cosmopolitan' not found"))]).
Proof.
  destruct (C7_unknown_name_structured_error COCKTAIL_TAXONOMY initial_state
              (lit "Cosmopolitan")) as (H1 & H2 & H3);
    [vm_compute; reflexivity |].
  rewrite H1, H2, H3. repeat split.
Defined.

(** C9. The spirit-warmth tool reads a table of seven entries. A name whose
    lowercase form is one of the seven spirits gives the dict of the
    lowercase name, its warmth and the band of that warmth. A name whose
    lowercase form is none of the seven gives a dict with one [error]
    entry: no default warmth is returned. *)
Theorem C9_spirit_warmth (spirit_name : str) :
  length spirit_warmth_map = 7%nat /\
  (forall n w,
     (n, w) ∈ [(lit "rum", 9); (lit "whiskey", 8); (lit "cognac", 9);
               (lit "mezcal", 8); (lit "tequila", 7); (lit "gin", 5);
               (lit "vodka", 3)] ->
     py_lower spirit_name = n ->
     get_spirit_warmth spirit_name =
       Ok (RDict [(lit "spirit", RStr n);
                  (lit "warmth_level", RVal (VInt w));
                  (lit "interpretation", RStr (interpretation_band w))])) /\
  ((forall n,
      n ∈ [lit "rum"; lit "whiskey"; lit "cognac"; lit "mezcal";
           lit "tequila"; lit "gin"; lit "vodka"] ->
      py_lower spirit_name <> n) ->
   get_spirit_warmth spirit_name =
     Ok (RDict [(lit "error",
                 RStr (lit "Spirit '" ++ spirit_name ++
                       lit "' not recognized"))])).
Proof.
  split; [reflexivity |]. split.
  - intros n w Hin Hlow. unfold get_spirit_warmth. rewrite Hlow.
    repeat (apply elem_of_cons in Hin as [[= -> ->] | Hin]; [reflexivity |]).
    by apply elem_of_nil in Hin.
  - intros Hnone. unfold get_spirit_warmth.
    replace (dict_contains (py_lower spirit_name) spirit_warmth_map)
      with false; [reflexivity |].
    assert (Hne : forall n,
               n ∈ [lit "rum"; lit "whiskey"; lit "cognac"; lit "mezcal";
                    lit "tequila"; lit "gin"; lit "vodka"] ->
               bool_decide (n = py_lower spirit_name) = false).
    { intros n Hn. apply bool_decide_eq_false_2. intros E.
      by apply (Hnone n Hn). }
    symmetry. unfold dict_contains, spirit_warmth_map, str_eqb. simpl.
    rewrite !Hne by repeat constructor. reflexivity.
Qed.

(** C10. The primary mood may be among the secondary moods. With the herbal
    flavor and a richness of 7 or more the orchestration function returns a
    record whose mood keywords, the primary mood followed by the secondary
    moods, start with elegant twice; and [get_visual_parameters] returns
    the mood keywords of the cached record as they are. *)
Theorem C10_primary_mood_repeated spirit complexity bitterness
    (sweetness richness : Z) palette has_cream has_ice is_effervescent :
  7 <= richness ->
  (exists vp rest,
     build_visual_parameters spirit HERBAL complexity bitterness
       (VInt sweetness) (VInt richness) palette has_cream has_ice
       is_effervescent = Ok vp /\
     mood_keywords vp = lit "elegant" :: lit "elegant" :: rest) /\
  (forall taxonomy st cocktail_name profile,
     dict_getitem (lookup_key cocktail_name)
       (_profile_cache (_ensure_cached taxonomy st)) = Ok profile ->
     exists fields,
       (get_visual_parameters taxonomy cocktail_name st).1 =
         Ok (RDict (fields ++
               [(lit "mood_keywords",
                 RStrs (mood_keywords
                          (CocktailProfile.visual_parameters profile)))]))).
Proof.
  intros Hrich. split.
  - destruct (build_visual_parameters_int spirit HERBAL complexity bitterness
      sweetness richness palette has_cream has_ice is_effervescent)
      as (vp & Hvp & Hmood & _ & Hsec).
    exists vp. eexists. split; [exact Hvp |].
    unfold mood_keywords. rewrite Hmood, Hsec. unfold secondary_moods_rule.
    rewrite decide_True by exact Hrich. reflexivity.
  - intros taxonomy st cocktail_name profile Hget.
    unfold get_visual_parameters.
    rewrite (dict_getitem_contains _ _ _ Hget), Hget. simpl.
    by eexists [_; _; _; _].
Qed.

Lemma C10_primary_mood_repeated_witness :
  (exists vp rest,
     build_visual_parameters WHISKEY HERBAL SIMPLE (VInt 5) (VInt 1) (VInt 7)
       (VList []) (VBool false) (VBool true) (VBool false) = Ok vp /\
     mood_keywords vp = lit "elegant" :: lit "elegant" :: rest) /\
  exists fields,
    (get_visual_parameters [(lit "sazerac", rich_sazerac)] (lit "Sazerac")
       initial_state).1 =
    Ok (RDict (fields ++
          [(lit "mood_keywords", RStrs [lit "elegant"; lit "elegant"])])).
Proof.
  destruct (C10_primary_mood_repeated WHISKEY SIMPLE (VInt 5) 1 7 (VList [])
              (VBool false) (VBool true) (VBool false))
    as [Hbuild Htool]; [lia |].
  split; [exact Hbuild |].
  edestruct (Htool [(lit "sazerac", rich_sazerac)] initial_state
               (lit "Sazerac")) as [fields Hfields];
    [vm_compute; reflexivity |].
  exists fields. rewrite Hfields. reflexivity.
Defined.

(** ** Lookup keys *)

Lemma name_tools_key (taxonomy : list (str * Dict)) (st : state)
    (name1 name2 : str) :
  lookup_key name1 = lookup_key name2 ->
  dict_contains (lookup_key name1)
    (_profile_cache (_ensure_cached taxonomy st)) = true ->
  get_cocktail_profile taxonomy name1 st =
    get_cocktail_profile taxonomy name2 st /\
  get_visual_parameters taxonomy name1 st =
    get_visual_parameters taxonomy name2 st /\
  forall base_prompt,
    enhance_prompt_with_cocktail taxonomy base_prompt name1 st =
    enhance_prompt_with_cocktail taxonomy base_prompt name2 st.
Proof.
  intros Hkey Hin.
  unfold get_cocktail_profile, get_visual_parameters,
    enhance_prompt_with_cocktail.
  rewrite <- Hkey, Hin. by repeat split.
Qed.

(** C6, as the code has it. The three name-taking tools look a name up
    under its lowercase form with spaces and hyphens replaced by
    underscores: two names with the same such key, when the key is in the
    cache, get the same result and leave the same state. The search by
    flavor and the spirit-warmth tool lowercase their argument and replace
    nothing: two arguments with the same lowercase form get the same
    result, for the spirit-warmth tool when that form is in its table. *)
Theorem C6_lookup_key_normalization (taxonomy : list (str * Dict))
    (st : state) :
  (forall name1 name2,
     lookup_key name1 =
       py_replace 0x2D 0x5F (py_replace 0x20 0x5F (py_lower name1)) /\
     (lookup_key name1 = lookup_key name2 ->
      dict_contains (lookup_key name1)
        (_profile_cache (_ensure_cached taxonomy st)) = true ->
      get_cocktail_profile taxonomy name1 st =
        get_cocktail_profile taxonomy name2 st /\
      get_visual_parameters taxonomy name1 st =
        get_visual_parameters taxonomy name2 st /\
      forall base_prompt,
        enhance_prompt_with_cocktail taxonomy base_prompt name1 st =
        enhance_prompt_with_cocktail taxonomy base_prompt name2 st)) /\
  (forall flavor1 flavor2,
     py_lower flavor1 = py_lower flavor2 ->
     search_cocktails_by_flavor taxonomy flavor1 st =
     search_cocktails_by_flavor taxonomy flavor2 st) /\
  (forall spirit1 spirit2,
     py_lower spirit1 = py_lower spirit2 ->
     dict_contains (py_lower spirit1) spirit_warmth_map = true ->
     get_spirit_warmth spirit1 = get_spirit_warmth spirit2).
Proof.
  split; [| split].
  - intros name1 name2. split; [reflexivity |]. apply name_tools_key.
  - intros flavor1 flavor2 Hlow. unfold search_cocktails_by_flavor.
    by rewrite Hlow.
  - intros spirit1 spirit2 Hlow Hknown. unfold get_spirit_warmth.
    rewrite <- Hlow, Hknown. reflexivity.
Qed.

Lemma C6_lookup_key_normalization_witness :
  (lookup_key (lit "Old Fashioned") = lit "old_fashioned" /\
   lookup_key (lit "old-fashioned") = lit "old_fashioned" /\
   lookup_key (lit "OLD_FASHIONED") = lit "old_fashioned") /\
  (get_cocktail_profile COCKTAIL_TAXONOMY (lit "Old Fashioned") initial_state =
   get_cocktail_profile COCKTAIL_TAXONOMY (lit "old-fashioned") initial_state
   /\
   get_cocktail_profile COCKTAIL_TAXONOMY (lit "Old Fashioned") initial_state =
   get_cocktail_profile COCKTAIL_TAXONOMY (lit "OLD_FASHIONED") initial_state)
  /\
  search_cocktails_by_flavor COCKTAIL_TAXONOMY (lit "Herbal") initial_state =
  search_cocktails_by_flavor COCKTAIL_TAXONOMY (lit "HERBAL") initial_state /\
  get_spirit_warmth (lit "Rum") = get_spirit_warmth (lit "RUM").
Proof.
  destruct (C6_lookup_key_normalization COCKTAIL_TAXONOMY initial_state)
    as (Hname & Hflavor & Hspirit).
  destruct (Hname (lit "Old Fashioned") (lit "old-fashioned")) as [_ Hhyphen].
  destruct (Hname (lit "Old Fashioned") (lit "OLD_FASHIONED")) as [_ Hupper].
  destruct Hhyphen as [Hhyphen _]; [reflexivity | vm_compute; reflexivity |].
  destruct Hupper as [Hupper _]; [reflexivity | vm_compute; reflexivity |].
  split; [by repeat split |]. split; [exact (conj Hhyphen Hupper) |].
  split; [by apply Hflavor | by apply Hspirit].
Defined.

(** C6, as stated, fails. The search by flavor does not replace spaces:
    the arguments [spirit forward] and [spirit_forward] have the same key,
    the first finds nothing and the second finds one cocktail. And a name
    whose key is absent is echoed as given in the not-found message:
    [Cosmopolitan] and [cosmopolitan] have the same key and get different
    results. *)
Lemma C6_equal_keys_unequal_results :
  (lookup_key (lit "spirit forward") = lookup_key (lit "spirit_forward") /\
   (search_cocktails_by_flavor COCKTAIL_TAXONOMY (lit "spirit forward")
      initial_state).1 =
     Ok (RDict [(lit "flavor", RStr (lit "spirit forward"));
                (lit "matches", RList []);
                (lit "count", RVal (VInt 0))]) /\
   (exists found,
      (search_cocktails_by_flavor COCKTAIL_TAXONOMY (lit "spirit_forward")
         initial_state).1 =
        Ok (RDict [(lit "flavor", RStr (lit "spirit_forward"));
                   (lit "matches", RList [found]);
                   (lit "count", RVal (VInt 1))])) /\
   (search_cocktails_by_flavor COCKTAIL_TAXONOMY (lit "spirit forward")
      initial_state).1 <>
   (search_cocktails_by_flavor COCKTAIL_TAXONOMY (lit "spirit_forward")
      initial_state).1) /\
  (lookup_key (lit "Cosmopolitan") = lookup_key (lit "cosmopolitan") /\
   (get_cocktail_profile COCKTAIL_TAXONOMY (lit "Cosmopolitan")
      initial_state).1 <>
   (get_cocktail_profile COCKTAIL_TAXONOMY (lit "cosmopolitan")
      initial_state).1).
Proof.
  split; [split; [reflexivity |]; split; [reflexivity |]; split |].
  - eexists. vm_compute. reflexivity.
  - vm_compute. discriminate.
  - split; [reflexivity |]. vm_compute. discriminate.
Qed.

(** ** Unrecognized labels and the filling of the cache *)

Lemma str_eqb_eq (s t : str) : str_eqb s t = true <-> s = t.
Proof. unfold str_eqb. apply bool_decide_eq_true. Qed.

Lemma str_eqb_refl (s : str) : str_eqb s s = true.
Proof. by apply str_eqb_eq. Qed.

Lemma str_eqb_neq (s t : str) : s <> t -> str_eqb s t = false.
Proof. unfold str_eqb. apply bool_decide_eq_false_2. Qed.

Lemma by_value_unknown (E : Type) `{PyEnum E} (v : str) :
  (forall m : E, value_of m <> v) -> by_value E v = Raise (ValueError v).
Proof.
  intros Hno. unfold by_value.
  destruct (find _ members) as [m |] eqn:Hfind; [| reflexivity].
  apply find_some in Hfind as [_ Heq]. apply str_eqb_eq in Heq.
  by destruct (Hno m).
Qed.

Lemma by_name_unknown (E : Type) `{PyEnum E} (n : str) :
  (forall m : E, name_of m <> n) -> by_name E n = Raise (KeyError n).
Proof.
  intros Hno. unfold by_name.
  destruct (find _ members) as [m |] eqn:Hfind; [| reflexivity].
  apply find_some in Hfind as [_ Heq]. apply str_eqb_eq in Heq.
  by destruct (Hno m).
Qed.

Lemma by_value_cases (E : Type) `{PyEnum E} (v : str) :
  (exists m, by_value E v = Ok m) \/ by_value E v = Raise (ValueError v).
Proof. unfold by_value. destruct (find _ members); eauto. Qed.

Lemma by_name_cases (E : Type) `{PyEnum E} (n : str) :
  (exists m, by_name E n = Ok m) \/ by_name E n = Raise (KeyError n).
Proof. unfold by_name. destruct (find _ members); eauto. Qed.

Lemma unrecognized_label_raises (d : Dict) :
  unrecognized_label d ->
  exists e, cocktail_to_profile d = Raise e /\ lookup_error e.
Proof.
  intros (s & f & c & Hs & Hf & Hc & Hbad).
  unfold cocktail_to_profile, getitem. rewrite Hs, Hf, Hc. simpl.
  destruct Hbad as [Hbad | [Hbad | Hbad]].
  - rewrite (by_value_unknown SpiritBase _ Hbad). by eexists.
  - destruct (by_value_cases SpiritBase (py_lower s)) as [[spirit ->] | ->];
      simpl; [| by eexists].
    rewrite (by_name_unknown FlavorType _ Hbad). by eexists.
  - destruct (by_value_cases SpiritBase (py_lower s)) as [[spirit ->] | ->];
      simpl; [| by eexists].
    destruct (by_name_cases FlavorType (py_upper (py_lower f)))
      as [[flavor ->] | ->]; simpl; [| by eexists].
    rewrite (by_value_unknown ComplexityLevel _ Hbad). by eexists.
Qed.

Lemma dict_contains_app {V} (k : str) (d1 d2 : list (str * V)) :
  dict_contains k (d1 ++ d2) = dict_contains k d1 || dict_contains k d2.
Proof. apply existsb_app. Qed.

Lemma dict_setitem_fresh {V} (k : str) (v : V) (d : list (str * V)) :
  dict_contains k d = false -> dict_setitem k v d = d ++ [(k, v)].
Proof.
  unfold dict_contains.
  induction d as [| [k' v'] d IH]; simpl; [reflexivity |].
  destruct (str_eqb k' k); simpl; [discriminate |].
  intros Hd. by rewrite IH.
Qed.

Lemma converted_keys (taxonomy : list (str * Dict)) (k : str) :
  dict_contains k (converted taxonomy) = true -> k ∈ taxonomy.*1.
Proof.
  induction taxonomy as [| [k0 d0] taxonomy IH]; simpl; [discriminate |].
  rewrite dict_contains_app. intros [Hhead | Htail]%orb_true_iff.
  - destruct (cocktail_to_profile d0); simpl in Hhead; [| discriminate].
    rewrite orb_false_r in Hhead. apply str_eqb_eq in Hhead as ->.
    apply list_elem_of_here.
  - apply list_elem_of_further. by apply IH.
Qed.

Lemma _ensure_cached_fold (taxonomy : list (str * Dict)) :
  forall st,
    NoDup taxonomy.*1 ->
    (forall k, k ∈ taxonomy.*1 -> dict_contains k (_profile_cache st) = false) ->
    fold_left
      (fun st '(cocktail_key, cocktail_data) =>
         match cocktail_to_profile cocktail_data with
         | Ok profile =>
             {| _profile_cache :=
                  dict_setitem cocktail_key profile (_profile_cache st);
                stdout := stdout st |}
         | Raise e =>
             {| _profile_cache := _profile_cache st;
                stdout := stdout st ++ [(cocktail_key, e)] |}
         end)
      taxonomy st =
    {| _profile_cache := _profile_cache st ++ converted taxonomy;
       stdout := stdout st ++ failed taxonomy |}.
Proof.
  induction taxonomy as [| [k d] taxonomy IH]; intros st Hnodup Hfresh; simpl.
  - rewrite !app_nil_r. by destruct st.
  - apply NoDup_cons in Hnodup as [Hk Hnodup].
    assert (Hkfresh : dict_contains k (_profile_cache st) = false)
      by (apply Hfresh; apply list_elem_of_here).
    destruct (cocktail_to_profile d) as [p | e]; rewrite IH; simpl;
      try assumption.
    + rewrite dict_setitem_fresh by assumption. by rewrite <- app_assoc.
    + intros k' Hk'. rewrite dict_setitem_fresh by assumption.
      rewrite dict_contains_app, Hfresh by by apply list_elem_of_further.
      simpl. rewrite str_eqb_neq; [reflexivity |]. by intros ->.
    + by rewrite <- app_assoc.
    + intros k' Hk'. apply Hfresh. by apply list_elem_of_further.
Qed.

Lemma _ensure_cached_empty (taxonomy : list (str * Dict)) (st : state) :
  NoDup taxonomy.*1 ->
  _profile_cache st = [] ->
  _ensure_cached taxonomy st =
    {| _profile_cache := converted taxonomy;
       stdout := stdout st ++ failed taxonomy |}.
Proof.
  intros Hnodup Hempty. unfold _ensure_cached. rewrite Hempty.
  rewrite _ensure_cached_fold; [by rewrite Hempty | assumption |].
  intros k _. by rewrite Hempty.
Qed.

Lemma converted_getitem (taxonomy : list (str * Dict)) (k : str) (d : Dict)
    (p : CocktailProfile.t) :
  NoDup taxonomy.*1 ->
  (k, d) ∈ taxonomy ->
  cocktail_to_profile d = Ok p ->
  dict_getitem k (converted taxonomy) = Ok p.
Proof.
  intros Hnodup Hin Hp.
  induction taxonomy as [| [k0 d0] taxonomy IH]; [by apply elem_of_nil in Hin |].
  apply NoDup_cons in Hnodup as [Hk0 Hnodup].
  apply elem_of_cons in Hin as [[= <- <-] | Hin]; simpl.
  - rewrite Hp. unfold dict_getitem. simpl. by rewrite str_eqb_refl.
  - assert (k0 <> k).
    { intros ->. apply Hk0. apply list_elem_of_fmap. by exists (k, d). }
    specialize (IH Hnodup Hin).
    destruct (cocktail_to_profile d0); simpl; [| exact IH].
    unfold dict_getitem in *. simpl. by rewrite str_eqb_neq.
Qed.

Lemma converted_skips (taxonomy : list (str * Dict)) (k : str) (d : Dict)
    (e : exn) :
  NoDup taxonomy.*1 ->
  (k, d) ∈ taxonomy ->
  cocktail_to_profile d = Raise e ->
  dict_contains k (converted taxonomy) = false.
Proof.
  intros Hnodup Hin He.
  induction taxonomy as [| [k0 d0] taxonomy IH]; [reflexivity |].
  apply NoDup_cons in Hnodup as [Hk0 Hnodup].
  apply elem_of_cons in Hin as [[= <- <-] | Hin]; simpl.
  - rewrite He. simpl. apply not_true_is_false. intros Hc.
    by apply converted_keys in Hc.
  - assert (k0 <> k).
    { intros ->. apply Hk0. apply list_elem_of_fmap. by exists (k, d). }
    rewrite dict_contains_app, (IH Hnodup Hin), orb_false_r.
    destruct (cocktail_to_profile d0); simpl; [| reflexivity].
    by rewrite str_eqb_neq.
Qed.

Lemma failed_logged (taxonomy : list (str * Dict)) (k : str) (d : Dict)
    (e : exn) :
  (k, d) ∈ taxonomy ->
  cocktail_to_profile d = Raise e ->
  (k, e) ∈ failed taxonomy.
Proof.
  intros Hin He. apply list_elem_of_In, in_flat_map.
  exists (k, d). split; [by apply list_elem_of_In |].
  rewrite He. by left.
Qed.

(** C8, as the code has it. The spirit base and the complexity are looked
    up by value under their lowercase form, the primary flavor by name
    under its lowercase form put in uppercase. Take a table with distinct
    keys and an empty cache. A record of the table with a label rejected by
    its lookup makes the conversion raise the [ValueError] or [KeyError] of
    that lookup and yields no profile; filling the cache leaves its key out
    and prints one line for it. Every record of the table that converts is
    in the cache under its key with the profile the conversion returns. *)
Theorem C8_unrecognized_label_skipped (taxonomy : list (str * Dict))
    (st : state) (key : str) (data : Dict) :
  NoDup taxonomy.*1 ->
  _profile_cache st = [] ->
  (key, data) ∈ taxonomy ->
  (unrecognized_label data ->
   exists e,
     cocktail_to_profile data = Raise e /\
     lookup_error e /\
     dict_contains key (_profile_cache (_ensure_cached taxonomy st)) = false /\
     (key, e) ∈ stdout (_ensure_cached taxonomy st)) /\
  (forall profile,
     cocktail_to_profile data = Ok profile ->
     dict_getitem key (_profile_cache (_ensure_cached taxonomy st)) =
       Ok profile).
Proof.
  intros Hnodup Hempty Hin.
  rewrite (_ensure_cached_empty taxonomy st Hnodup Hempty). simpl. split.
  - intros Hbad.
    destruct (unrecognized_label_raises data Hbad) as (e & He & Hlookup).
    exists e. repeat split; try assumption.
    + by apply (converted_skips taxonomy key data e).
    + apply elem_of_app. right. by apply (failed_logged taxonomy key data).
  - intros profile Hp. by apply (converted_getitem taxonomy key data).
Qed.

Lemma C8_unrecognized_label_skipped_witness :
  (exists e,
     cocktail_to_profile absinthe_drip = Raise e /\
     lookup_error e /\
     dict_contains (lit "absinthe_drip")
       (_profile_cache (_ensure_cached mixed_taxonomy initial_state)) = false /\
     (lit "absinthe_drip", e) ∈
       stdout (_ensure_cached mixed_taxonomy initial_state)) /\
  (exists profile,
     cocktail_to_profile sazerac = Ok profile /\
     dict_getitem (lit "sazerac")
       (_profile_cache (_ensure_cached mixed_taxonomy initial_state)) =
       Ok profile).
Proof.
  assert (Hnodup : NoDup mixed_taxonomy.*1)
    by (apply (bool_decide_unpack _); vm_compute; exact I).
  split.
  - apply (C8_unrecognized_label_skipped mixed_taxonomy initial_state
             (lit "absinthe_drip") absinthe_drip);
      [exact Hnodup | reflexivity | repeat constructor |].
    exists (lit "Absinthe"), (lit "herbal"), (lit "simple").
    repeat split; try reflexivity.
    left. intros m. destruct m; vm_compute; discriminate.
  - eexists. split; [vm_compute; reflexivity |].
    apply (C8_unrecognized_label_skipped mixed_taxonomy initial_state
             (lit "sazerac") sazerac);
      [exact Hnodup | reflexivity | repeat constructor |].
    vm_compute; reflexivity.
Defined.

(** C8, as stated, fails for the primary flavor. The lowercase form of
    the flavor [U+017F o u r] (a long s) is the string itself, which is the
    value of no flavor; the enumeration is looked up by name under the
    uppercase form, which is [SOUR], and the conversion returns a sour
    profile. *)
Lemma C8_long_s_flavor_converts :
  long_s_sour !! lit "primary_flavor" = Some (VStr (0x17F%N :: lit "our")) /\
  py_lower (0x17F%N :: lit "our") = 0x17F%N :: lit "our" /\
  Forall (fun m : FlavorType => value_of m <> py_lower (0x17F%N :: lit "our"))
    members /\
  py_upper (py_lower (0x17F%N :: lit "our")) = lit "SOUR" /\
  exists profile,
    cocktail_to_profile long_s_sour = Ok profile /\
    CocktailProfile.primary_flavor profile = SOUR.
Proof.
  split; [reflexivity |]. split; [reflexivity |]. split.
  - repeat constructor; vm_compute; discriminate.
  - split; [reflexivity |]. eexists. split; [vm_compute; reflexivity |].
    reflexivity.
Qed.

(** * Further properties *)

(** ** The orchestration function and the spirit-warmth tool *)

(** X1. Whatever the arguments, the secondary moods of a result of the
    orchestration function are a sublist of elegant, aromatic, playful: at
    most three moods, never twice the same, always in this order. *)
Theorem X1_secondary_moods_sublist spirit flavor complexity
    (bitterness sweetness richness palette : pyval)
    (has_cream has_ice is_effervescent : pyval) (vp : VisualParameters.t) :
  build_visual_parameters spirit flavor complexity bitterness sweetness
    richness palette has_cream has_ice is_effervescent = Ok vp ->
  VisualParameters.secondary_moods vp `sublist_of`
    [MoodDescriptor.ELEGANT; MoodDescriptor.AROMATIC; MoodDescriptor.PLAYFUL]
  /\ (length (VisualParameters.secondary_moods vp) <= 3)%nat
  /\ NoDup (VisualParameters.secondary_moods vp).
Proof.
  unfold build_visual_parameters.
  destruct (py_ge richness 7) as [rich |]; simpl; [| discriminate].
  destruct (py_ge sweetness 6) as [sweet |]; simpl; [| discriminate].
  intros [= <-]. simpl.
  destruct rich, sweet, (bool_decide (complexity = COMPLEX)); simpl;
    (split;
     [repeat first [apply sublist_skip | apply sublist_cons
                   | apply sublist_nil]
     | split; [lia | apply (bool_decide_unpack _); vm_compute; exact I]]).
Qed.

Lemma X1_secondary_moods_sublist_witness :
  exists vp,
    build_visual_parameters RUM SWEET SIMPLE VNone (VInt 6) (VBool true)
      VNone VNone VNone VNone = Ok vp /\
    VisualParameters.secondary_moods vp = [MoodDescriptor.PLAYFUL] /\
    (VisualParameters.secondary_moods vp `sublist_of`
       [MoodDescriptor.ELEGANT; MoodDescriptor.AROMATIC;
        MoodDescriptor.PLAYFUL]
     /\ (length (VisualParameters.secondary_moods vp) <= 3)%nat
     /\ NoDup (VisualParameters.secondary_moods vp)).
Proof.
  eexists. split; [reflexivity |]. split; [reflexivity |].
  exact (X1_secondary_moods_sublist RUM SWEET SIMPLE VNone (VInt 6)
           (VBool true) VNone VNone VNone VNone _ eq_refl).
Defined.

Lemma get_spirit_warmth_unknown (spirit_name : str) :
  dict_contains (py_lower spirit_name) spirit_warmth_map = false ->
  get_spirit_warmth spirit_name =
    Ok (RDict [(lit "error",
                RStr (lit "Spirit '" ++ spirit_name ++
                      lit "' not recognized"))]).
Proof. intros H. unfold get_spirit_warmth. by rewrite H. Qed.

(** X2. The table of the spirit-warmth tool and the warmth morphism agree.
    When the lowercase name is the value of a member of [SpiritBase], the
    tool returns the warmth the morphism gives that member; when it is the
    value of no member, the tool returns its error dict: the tool knows the
    spirits of the enumeration and no other. *)
Theorem X2_spirit_warmth_agrees (spirit_name : str) :
  match by_value SpiritBase (py_lower spirit_name) with
  | Ok spirit =>
      get_spirit_warmth spirit_name =
        Ok (RDict [
          (lit "spirit", RStr (value_of spirit));
          (lit "warmth_level", RVal (VInt (spirit_base_to_warmth spirit)));
          (lit "interpretation",
           RStr (interpretation_band (spirit_base_to_warmth spirit)))])
  | Raise _ =>
      get_spirit_warmth spirit_name =
        Ok (RDict [(lit "error",
                    RStr (lit "Spirit '" ++ spirit_name ++
                          lit "' not recognized"))])
  end.
Proof.
  destruct (decide (py_lower spirit_name = lit "rum")) as [E | N1];
    [unfold get_spirit_warmth; rewrite E; reflexivity |].
  destruct (decide (py_lower spirit_name = lit "whiskey")) as [E | N2];
    [unfold get_spirit_warmth; rewrite E; reflexivity |].
  destruct (decide (py_lower spirit_name = lit "vodka")) as [E | N3];
    [unfold get_spirit_warmth; rewrite E; reflexivity |].
  destruct (decide (py_lower spirit_name = lit "gin")) as [E | N4];
    [unfold get_spirit_warmth; rewrite E; reflexivity |].
  destruct (decide (py_lower spirit_name = lit "tequila")) as [E | N5];
    [unfold get_spirit_warmth; rewrite E; reflexivity |].
  destruct (decide (py_lower spirit_name = lit "cognac")) as [E | N6];
    [unfold get_spirit_warmth; rewrite E; reflexivity |].
  destruct (decide (py_lower spirit_name = lit "mezcal")) as [E | N7];
    [unfold get_spirit_warmth; rewrite E; reflexivity |].
  rewrite by_value_unknown by (intros []; simpl; congruence).
  apply get_spirit_warmth_unknown.
  unfold dict_contains, spirit_warmth_map. simpl.
  rewrite !str_eqb_neq by congruence. reflexivity.
Qed.

(** ** The conversion *)

Lemma py_ge_number (v : pyval) (n : Z) :
  (is_number v = true -> exists b, py_ge v n = Ok b) /\
  (is_number v = false -> py_ge v n = Raise TypeError).
Proof. destruct v; simpl; split; intros; by eauto. Qed.

Lemma build_visual_parameters_ok_iff spirit flavor complexity
    (bitterness sweetness richness palette : pyval)
    (has_cream has_ice is_effervescent : pyval) :
  is_Ok (build_visual_parameters spirit flavor complexity bitterness
           sweetness richness palette has_cream has_ice is_effervescent) <->
  is_number richness = true /\ is_number sweetness = true.
Proof.
  unfold build_visual_parameters, is_Ok.
  destruct (py_ge_number richness 7) as [Hr1 Hr0].
  destruct (py_ge_number sweetness 6) as [Hs1 Hs0].
  destruct (is_number richness).
  - destruct (Hr1 eq_refl) as [rich ->]. simpl.
    destruct (is_number sweetness).
    + destruct (Hs1 eq_refl) as [sweet ->]. simpl.
      split; [done | by eexists].
    + rewrite (Hs0 eq_refl). simpl.
      split; [by intros [vp [=]] | by intros [_ [=]]].
  - rewrite (Hr0 eq_refl). simpl.
    split; [by intros [vp [=]] | by intros [[=] _]].
Qed.




(** ** The cache *)

Lemma _ensure_cached_unfold (taxonomy : list (str * Dict)) (st : state) :
  _ensure_cached taxonomy st =
    match _profile_cache st with
    | [] => fold_left cache_record taxonomy st
    | _ :: _ => st
    end.
Proof. reflexivity. Qed.

Lemma dict_setitem_nonempty {V} (k : str) (v : V) (d : list (str * V)) :
  dict_setitem k v d <> [].
Proof.
  destruct d as [| [k' v'] d]; simpl; [| destruct (str_eqb k' k)]; done.
Qed.

Lemma fold_cache_record_keeps (taxonomy : list (str * Dict)) :
  forall st,
    _profile_cache st <> [] ->
    _profile_cache (fold_left cache_record taxonomy st) <> [].
Proof.
  induction taxonomy as [| [k d] taxonomy IH]; intros st Hst; simpl;
    [exact Hst |].
  apply IH. destruct (cocktail_to_profile d); simpl; [| exact Hst].
  apply dict_setitem_nonempty.
Qed.

Lemma fold_cache_record_fills (taxonomy : list (str * Dict)) (k : str)
    (d : Dict) :
  (k, d) ∈ taxonomy ->
  is_Ok (cocktail_to_profile d) ->
  forall st, _profile_cache (fold_left cache_record taxonomy st) <> [].
Proof.
  intros Hin [p Hp].
  induction taxonomy as [| item taxonomy IH]; [by apply elem_of_nil in Hin |].
  intros st. simpl.
  apply elem_of_cons in Hin as [<- | Hin]; [| by apply IH].
  apply fold_cache_record_keeps. simpl. rewrite Hp. simpl.
  apply dict_setitem_nonempty.
Qed.

(** X5. Filling the cache is idempotent as soon as the cache holds
    something: when the cache is not empty, or when one record of the table
    converts, a second call of [_ensure_cached] changes nothing, neither
    the cache nor what has been printed. *)
Theorem X5_ensure_cached_idempotent (taxonomy : list (str * Dict))
    (st : state) :
  _profile_cache st <> [] \/
    (exists k d, (k, d) ∈ taxonomy /\ is_Ok (cocktail_to_profile d)) ->
  _ensure_cached taxonomy (_ensure_cached taxonomy st) =
    _ensure_cached taxonomy st.
Proof.
  intros H.
  assert (Hfilled : _profile_cache (_ensure_cached taxonomy st) <> []).
  { rewrite _ensure_cached_unfold.
    destruct (_profile_cache st) as [| entry cache] eqn:Hcache;
      [| by rewrite Hcache].
    destruct H as [H | (k & d & Hin & Hok)]; [done |].
    by apply (fold_cache_record_fills taxonomy k d). }
  rewrite (_ensure_cached_unfold taxonomy (_ensure_cached taxonomy st)).
  by destruct (_profile_cache (_ensure_cached taxonomy st)).
Qed.

Lemma X5_ensure_cached_idempotent_witness :
  _ensure_cached mixed_taxonomy (_ensure_cached mixed_taxonomy initial_state) =
    _ensure_cached mixed_taxonomy initial_state.
Proof.
  apply X5_ensure_cached_idempotent. right.
  exists (lit "sazerac"), sazerac. split; [repeat constructor |].
  eexists. vm_compute. reflexivity.
Defined.

Lemma fold_cache_record_all_fail (taxonomy : list (str * Dict)) :
  (forall k d, (k, d) ∈ taxonomy -> ~ is_Ok (cocktail_to_profile d)) ->
  forall st,
    fold_left cache_record taxonomy st =
      {| _profile_cache := _profile_cache st;
         stdout := stdout st ++ failed taxonomy |} /\
    length (failed taxonomy) = length taxonomy.
Proof.
  induction taxonomy as [| [k d] taxonomy IH]; intros Hfail st.
  - simpl. rewrite app_nil_r. by destruct st.
  - assert (Hd : ~ is_Ok (cocktail_to_profile d))
      by (apply (Hfail k); apply list_elem_of_here).
    assert (Hrest : forall k' d',
              (k', d') ∈ taxonomy -> ~ is_Ok (cocktail_to_profile d'))
      by (intros k' d' H; apply (Hfail k' d'); by apply list_elem_of_further).
    unfold failed. simpl. fold (failed taxonomy).
    destruct (cocktail_to_profile d) as [p | e]; [destruct Hd; by eexists |].
    destruct (IH Hrest {| _profile_cache := _profile_cache st;
                          stdout := stdout st ++ [(k, e)] |}) as [Hfold Hlen].
    rewrite Hfold. simpl. rewrite <- app_assoc, Hlen. done.
Qed.

(** X6. When no record of the table converts, the cache stays empty and
    nothing remembers that the table was read: every call of
    [_ensure_cached] reads the whole table again and prints one more line
    for each record. *)
Theorem X6_ensure_cached_rescans (taxonomy : list (str * Dict))
    (st : state) :
  _profile_cache st = [] ->
  (forall k d, (k, d) ∈ taxonomy -> ~ is_Ok (cocktail_to_profile d)) ->
  _ensure_cached taxonomy st =
    {| _profile_cache := []; stdout := stdout st ++ failed taxonomy |} /\
  _ensure_cached taxonomy (_ensure_cached taxonomy st) =
    {| _profile_cache := [];
       stdout := stdout st ++ failed taxonomy ++ failed taxonomy |} /\
  length (failed taxonomy) = length taxonomy.
Proof.
  intros Hempty Hfail.
  assert (H1 : _ensure_cached taxonomy st =
    {| _profile_cache := []; stdout := stdout st ++ failed taxonomy |}).
  { rewrite _ensure_cached_unfold, Hempty.
    destruct (fold_cache_record_all_fail taxonomy Hfail st) as [-> _].
    by rewrite Hempty. }
  split; [exact H1 |]. split.
  - rewrite H1, _ensure_cached_unfold. simpl.
    destruct (fold_cache_record_all_fail taxonomy Hfail
      {| _profile_cache := []; stdout := stdout st ++ failed taxonomy |})
      as [-> _].
    simpl. by rewrite <- app_assoc.
  - by destruct (fold_cache_record_all_fail taxonomy Hfail st).
Qed.

Lemma X6_ensure_cached_rescans_witness :
  stdout (_ensure_cached [(lit "absinthe_drip", absinthe_drip)]
            (_ensure_cached [(lit "absinthe_drip", absinthe_drip)]
               initial_state)) =
    [(lit "absinthe_drip", ValueError (lit "absinthe"));
     (lit "absinthe_drip", ValueError (lit "absinthe"))].
Proof.
  destruct (X6_ensure_cached_rescans [(lit "absinthe_drip", absinthe_drip)]
              initial_state) as (_ & -> & _); [reflexivity | | reflexivity].
  intros k d Hin [p Hp].
  apply list_elem_of_singleton in Hin as [= -> ->]. vm_compute in Hp.
  discriminate Hp.
Defined.

(** ** The tools *)

Lemma str_items_joinable (l : list pyval) :
  (forallb (fun v => match v with VStr _ => true | _ => false end) l = true ->
   is_Ok (str_items l)) /\
  (forallb (fun v => match v with VStr _ => true | _ => false end) l = false ->
   str_items l = Raise TypeError).
Proof.
  induction l as [| v l [IH1 IH0]]; simpl.
  - split; [by eexists | discriminate].
  - destruct v; simpl; try (split; [discriminate | reflexivity]).
    split.
    + intros H. destruct (IH1 H) as [items ->]. by eexists.
    + intros H. by rewrite (IH0 H).
Qed.

Lemma palette_join (palette : pyval) :
  (palette_joinable palette = true ->
   is_Ok (py_slice2 palette ≫= py_join_val (lit ", "))) /\
  (palette_joinable palette = false ->
   py_slice2 palette ≫= py_join_val (lit ", ") = Raise TypeError).
Proof.
  destruct palette as [| b | z | s | l]; simpl;
    try (split; [discriminate | reflexivity]).
  - split; [by eexists | discriminate].
  - destruct (str_items_joinable (take 2 l)) as [H1 H0]. split.
    + intros H. destruct (H1 H) as [items Hitems].
      unfold mbind, result_bind in *. rewrite Hitems. by eexists.
    + intros H. unfold mbind, result_bind in *. by rewrite (H0 H).
Qed.



(** X8. A flavor that names no member of [FlavorType] is no error for the
    search: when the lowercase argument is the value of no flavor, the
    search returns the lowercase argument, no match and a count of 0,
    whatever the table. *)
Theorem X8_search_unknown_flavor (taxonomy : list (str * Dict))
    (st : state) (flavor : str) :
  (forall m : FlavorType, value_of m <> py_lower flavor) ->
  (search_cocktails_by_flavor taxonomy flavor st).1 =
    Ok (RDict [(lit "flavor", RStr (py_lower flavor));
               (lit "matches", RList []);
               (lit "count", RVal (VInt 0))]).
Proof.
  intros Hno. unfold search_cocktails_by_flavor. simpl.
  assert (Hnone : forall cache : list (str * CocktailProfile.t),
    flat_map (fun '(key, profile) =>
      if str_eqb (value_of (CocktailProfile.primary_flavor profile))
                 (py_lower flavor)
      then [RDict [
              (lit "name", RVal (CocktailProfile.name profile));
              (lit "id", RStr key);
              (lit "description",
               RVal (CocktailProfile.description profile))]]
      else []) cache = []).
  { induction cache as [| [k p] cache IH]; [reflexivity |]. simpl.
    rewrite str_eqb_neq by apply Hno. exact IH. }
  by rewrite Hnone.
Qed.

Lemma X8_search_unknown_flavor_witness :
  (search_cocktails_by_flavor COCKTAIL_TAXONOMY (lit "Umami")
     initial_state).1 =
    Ok (RDict [(lit "flavor", RStr (lit "umami"));
               (lit "matches", RList []);
               (lit "count", RVal (VInt 0))]).
Proof.
  apply (X8_search_unknown_flavor COCKTAIL_TAXONOMY initial_state
           (lit "Umami")).
  intros m. destruct m; vm_compute; discriminate.
Defined.
